(** * Audio-Cleaner: the denoising worker and the window of [deep.py]

    A shallow embedding of [remux], [resource_path], the class
    [DenoiseWorker] ([__init__], [run], [_cleanup], [stop]) and the
    handlers of the class [VideoDenoiserApp] of [deep.py].

    The worker is sequential Python code that talks to the outside through
    library calls (ffmpeg processes, MoviePy, DeepFilterNet, the file
    system, Qt signals).  Each library call is answered by an oracle, the
    record [World]; the code around the calls is embedded as it is written,
    in a small monad with state, exceptions and early [return]. *)

From Stdlib Require Import String Ascii List ZArith Bool Arith Lia.
From Stdlib Require Import DecimalString Sorted.
Import ListNotations.
Open Scope list_scope.
Open Scope string_scope.

(* ===================================================================== *)
(** ** Python values                                                      *)
(* ===================================================================== *)

Module Py.

(** The line feed written [\n] in the source's f-strings. *)
Definition nl : string := String "010"%char EmptyString.

(** Truth value of a [str]: empty is false. *)
Definition truthy (s : string) : bool := negb (s =? "").

(** Truth value of an optional [str] ([None] is false). *)
Definition truthy_opt (o : option string) : bool :=
  match o with Some s => truthy s | None => false end.

(** [a or b] on optional strings: the first operand when it is true. *)
Definition or_ (a b : option string) : option string :=
  if truthy_opt a then a else b.

(** Text of an optional string inside an f-string. *)
Definition fmt (o : option string) : string :=
  match o with Some s => s | None => "None" end.

(** [str(n)] for an [int]. *)
Definition str_int (n : Z) : string := NilZero.string_of_int (Z.to_int n).

(** [', '.join(l)]. *)
Fixpoint join (sep : string) (l : list string) : string :=
  match l with
  | [] => ""
  | [x] => x
  | x :: r => x ++ sep ++ join sep r
  end.

(** [repr] of a list of [str]; the escaping of quotes and control
    characters inside the items is left out. *)
Definition repr_list (l : list string) : string :=
  "[" ++ join ", " (map (fun s => "'" ++ s ++ "'") l) ++ "]".

(** The exceptions the worker can meet; all derive from [Exception]. *)
Inductive exn : Type :=
| CalledProcessError (returncode : Z) (cmd : list string)
                     (stdout stderr : option string)
| FileNotFoundError (msg : string)
| OSError (msg : string)
| AttributeError (msg : string)
| ValueError (msg : string)
| RuntimeError (msg : string)
| Exception_ (msg : string).

(** [str(e)]. *)
Definition str (e : exn) : string :=
  match e with
  | CalledProcessError rc cmd _ _ =>
      "Command '" ++ repr_list cmd ++ "' returned non-zero exit status "
      ++ str_int rc ++ "."
  | FileNotFoundError m | OSError m | AttributeError m
  | ValueError m | RuntimeError m | Exception_ m => m
  end.

(** [isinstance(e, OSError)]: [FileNotFoundError] is a subclass. *)
Definition is_OSError (e : exn) : bool :=
  match e with FileNotFoundError _ | OSError _ => true | _ => false end.

Definition is_FileNotFoundError (e : exn) : bool :=
  match e with FileNotFoundError _ => true | _ => false end.

Definition is_CalledProcessError (e : exn) : bool :=
  match e with CalledProcessError _ _ _ _ => true | _ => false end.

(** How a block of statements ends: it falls through with a value, it
    executes [return], or it raises. *)
Inductive completion (A : Type) : Type :=
| Normal (a : A)
| Return_
| Raise (e : exn).
Arguments Normal {A} a.
Arguments Return_ {A}.
Arguments Raise {A} e.

(** Statements over a state [S]. *)
Definition M (S A : Type) : Type := S -> completion A * S.

Definition ret {S A} (a : A) : M S A := fun s => (Normal a, s).
Definition return_ {S A} : M S A := fun s => (Return_, s).
Definition raise {S A} (e : exn) : M S A := fun s => (Raise e, s).

Definition bind {S A B} (m : M S A) (k : A -> M S B) : M S B :=
  fun s =>
    match m s with
    | (Normal a, s') => k a s'
    | (Return_, s') => (Return_, s')
    | (Raise e, s') => (Raise e, s')
    end.

Definition get {S} : M S S := fun s => (Normal s, s).
Definition gets {S A} (f : S -> A) : M S A := fun s => (Normal (f s), s).
Definition modify {S} (f : S -> S) : M S unit := fun s => (Normal tt, f s).

(** [try: body / except <sel> as e: handler e]. *)
Definition try_except {S A} (body : M S A) (sel : exn -> bool)
           (handler : exn -> M S A) : M S A :=
  fun s =>
    match body s with
    | (Raise e, s') => if sel e then handler e s' else (Raise e, s')
    | r => r
    end.

(** [try: body / finally: fin].  [fin] runs however [body] ended; when
    [fin] falls through, the way [body] ended stands, otherwise the way
    [fin] ended replaces it. *)
Definition try_finally {S A} (body : M S A) (fin : M S unit) : M S A :=
  fun s =>
    match body s with
    | (c, s') =>
        match fin s' with
        | (Normal _, s'') => (c, s'')
        | (Return_, s'') => (Return_, s'')
        | (Raise e, s'') => (Raise e, s'')
        end
    end.

(** A call: the callee's [return] ends the callee, not the caller. *)
Definition call {S} (body : M S unit) : M S unit :=
  fun s =>
    match body s with
    | (Return_, s') => (Normal tt, s')
    | r => r
    end.

(** [for x in l: body x]. *)
Fixpoint for_ {S A} (l : list A) (body : A -> M S unit) : M S unit :=
  match l with
  | [] => ret tt
  | x :: r => bind (body x) (fun _ => for_ r body)
  end.

Definition any_Exception (_ : exn) : bool := true.

End Py.

Import Py.

Declare Scope py_scope.
Delimit Scope py_scope with py.
Notation "x <- m ;; k" := (bind m (fun x => k))
  (at level 100, m at next level, right associativity) : py_scope.
Notation "m ;; k" := (bind m (fun _ => k))
  (at level 100, right associativity) : py_scope.
Open Scope py_scope.

(* ===================================================================== *)
(** ** Paths and the file system                                          *)
(* ===================================================================== *)

Module Os.

Definition slash : ascii := "/"%char.

Definition starts_with_slash (s : string) : bool :=
  match s with String c _ => (c =? slash)%char | EmptyString => false end.

Fixpoint ends_with_slash (s : string) : bool :=
  match s with
  | EmptyString => false
  | String c EmptyString => (c =? slash)%char
  | String _ r => ends_with_slash r
  end.

Fixpoint has_slash (s : string) : bool :=
  match s with
  | EmptyString => false
  | String c r => (c =? slash)%char || has_slash r
  end.

(** [os.path.join(a, b)] (POSIX). *)
Definition path_join (a b : string) : string :=
  if starts_with_slash b then b
  else if (a =? "") || ends_with_slash a then a ++ b
  else a ++ "/" ++ b.

(** [s.split('/')]. *)
Fixpoint split_slash (s : string) : list string :=
  match s with
  | EmptyString => [""]
  | String c r =>
      if (c =? slash)%char then "" :: split_slash r
      else match split_slash r with
           | h :: t => String c h :: t
           | [] => [String c ""]
           end
  end.

(** [Path(s).name]: the last component, empty and [.] components dropped. *)
Definition Path_name (s : string) : string :=
  last (filter (fun p => negb (p =? "") && negb (p =? ".")) (split_slash s)) "".

(** [s.removeprefix(p)] when [s] starts with [p]. *)
Fixpoint strip_prefix (p s : string) : option string :=
  match p, s with
  | EmptyString, _ => Some s
  | String a p', String b s' =>
      if (a =? b)%char then strip_prefix p' s' else None
  | String _ _, EmptyString => None
  end.

(** The file system as the worker sees it: the paths that exist. *)
Definition FS : Type := list string.

Definition exists_ (p : string) (fs : FS) : bool := existsb (String.eqb p) fs.

Definition create (p : string) (fs : FS) : FS :=
  if exists_ p fs then fs else p :: fs.

(** A call that may or may not have written [p]. *)
Definition create_if (b : bool) (p : string) (fs : FS) : FS :=
  if b then create p fs else fs.

Definition delete (p : string) (fs : FS) : FS :=
  filter (fun q => negb (q =? p)) fs.

(** The name of [p] inside directory [d], when [p] lies directly in it. *)
Definition entry_of (d p : string) : option string :=
  match strip_prefix (path_join d "") p with
  | Some n => if (n =? "") || has_slash n then None else Some n
  | None => None
  end.

(** [p] is [d] or lies below it. *)
Definition at_or_under (d p : string) : bool :=
  (p =? d) ||
  match strip_prefix (path_join d "") p with Some _ => true | None => false end.

(** Something exists at or below [d]. *)
Definition taken (d : string) (fs : FS) : bool := existsb (at_or_under d) fs.

(** [os.listdir(d)]. *)
Fixpoint listdir (d : string) (fs : FS) : list string :=
  match fs with
  | [] => []
  | p :: r =>
      match entry_of d p with
      | Some n => n :: listdir d r
      | None => listdir d r
      end
  end.

End Os.

(* ===================================================================== *)
(** ** What a job does to the outside                                     *)
(* ===================================================================== *)

(** One entry of the job's log: a Qt signal emitted by the worker or a
    library call made by it, in the order they happen.  A call is logged
    when it is made, whatever its outcome. *)
Inductive action : Type :=
| Emit_progress (percent : Z)
| Emit_finished (output_path message : string)
| Emit_error (message : string)
| Call_mkdtemp
| Call_subprocess_run (cmd : list string)
| Call_VideoFileClip (path : string)
| Call_write_audiofile (path codec : string)
| Call_close
| Call_init_df (model_path : string)
| Call_load_audio (path : string) (sr : Z)
| Call_enhance (samples : list Z) (atten_lim_db : option Z)
| Call_save_audio (path : string) (samples : list Z) (sr : Z)
| Call_sleep
| Call_listdir (path : string)
| Call_remove (path : string)
| Call_rmdir (path : string).

(** The audio attribute of an opened clip. *)
Inductive clip_audio : Type :=
| NoAudio                (* [clip.audio is None] *)
| AudioWithoutWriter     (* an audio object lacking [write_audiofile] *)
| Audio.

Record VideoFileClip_obj : Type := { audio : clip_audio }.

(** The samples of an audio tensor.  The worker never looks at them: it
    only tests the buffer against [None] and hands it on. *)
Definition Tensor : Type := list Z.

(** How an ffmpeg process ends. *)
Inductive proc_outcome : Type :=
| Exited (returncode : Z) (out err : string) (wrote_output : bool)
| SpawnFailed (e : exn).

(** How a library call that writes a file ends: the exception it raises,
    if any, and whether the file exists afterwards. *)
Record write_result : Type :=
  { raised : option exn; file_written : bool }.

(** State of the media handle behind the worker's clip. *)
Inductive handle_state : Type := NeverOpened | Open | Closed.

(** The answers of the outside to the calls of one job. *)
Record World : Type := {
  (* module level of deep.py *)
  DEEPFILTER_AVAILABLE : bool;
  sys_MEIPASS : option string;
  abspath_dot : string;
  (* files present before the job *)
  initial_fs : Os.FS;
  (* tempfile, shutil, imageio_ffmpeg, subprocess *)
  mkdtemp : nat -> exn + string;          (* the n-th call *)
  which_ffmpeg : option string;
  get_ffmpeg_exe : exn + string;
  process : list string -> proc_outcome;
  (* moviepy *)
  open_clip : string -> exn + VideoFileClip_obj;
  write_audio : string -> write_result;
  close_clip : nat -> option exn;         (* the n-th call *)
  (* df.enhance *)
  df_init : string -> exn + Z;            (* [df_state.sr()] of the model *)
  df_load : string -> Z -> exn + Tensor;
  df_enhance : Tensor -> option Z -> exn + option Tensor;
  df_save : string -> Tensor -> Z -> write_result;
  (* os *)
  listdir_error : string -> option exn;
  remove_error : string -> option exn;
  rmdir_error : string -> option exn;
  (* the GUI thread: [stop()] is called once the job's log has n entries,
     or never *)
  stop_at : option nat
}.

(** The part of the machine a job changes. *)
Record Sys : Type := {
  fs : Os.FS;
  log : list action;
  mkdtemp_calls : nat;
  close_calls : nat;
  handle : handle_state
}.

Definition with_fs (f : Os.FS -> Os.FS) (s : Sys) : Sys :=
  {| fs := f (fs s); log := log s; mkdtemp_calls := mkdtemp_calls s;
     close_calls := close_calls s; handle := handle s |}.

Definition with_log (a : action) (s : Sys) : Sys :=
  {| fs := fs s; log := (log s ++ [a])%list; mkdtemp_calls := mkdtemp_calls s;
     close_calls := close_calls s; handle := handle s |}.

Definition with_mkdtemp_call (s : Sys) : Sys :=
  {| fs := fs s; log := log s; mkdtemp_calls := S (mkdtemp_calls s);
     close_calls := close_calls s; handle := handle s |}.

Definition with_close_call (s : Sys) : Sys :=
  {| fs := fs s; log := log s; mkdtemp_calls := mkdtemp_calls s;
     close_calls := S (close_calls s); handle := handle s |}.

Definition with_handle (h : handle_state) (s : Sys) : Sys :=
  {| fs := fs s; log := log s; mkdtemp_calls := mkdtemp_calls s;
     close_calls := close_calls s; handle := h |}.

(** A Qt bound signal.  Its attribute [signal] is the signature of the
    signal as Qt's SIGNAL() macro spells it ("2error(QString)" for
    [pyqtSignal(str)] bound to the name [error]): a constant, non-empty
    string that [emit] does not change. *)
Record pyqtBoundSignal : Type := { signal : string }.

Section Libraries.

Variable w : World.

Definition record (a : action) : M Sys unit := modify (with_log a).

Definition of_sum {A} (r : exn + A) : M Sys A :=
  match r with inl e => raise e | inr a => ret a end.

Definition of_error (r : option exn) : M Sys unit :=
  match r with Some e => raise e | None => ret tt end.

(** [tempfile.mkdtemp()]: the directory it returns is new.  A name that
    is taken counts as the exhaustion of its retries. *)
Definition tempfile_mkdtemp : M Sys string :=
  record Call_mkdtemp ;;
  n <- gets mkdtemp_calls ;;
  modify with_mkdtemp_call ;;
  d <- of_sum (mkdtemp w n) ;;
  taken <- gets (fun s => Os.taken d (fs s)) ;;
  if taken then
    raise (OSError "No usable temporary directory name found")
  else
    modify (with_fs (Os.create d)) ;;
    ret d.

(** [shutil.which("ffmpeg") or imageio_ffmpeg.get_ffmpeg_exe()]. *)
Definition which_or_get_ffmpeg_exe : M Sys string :=
  match which_ffmpeg w with
  | Some p => if truthy p then ret p else of_sum (get_ffmpeg_exe w)
  | None => of_sum (get_ffmpeg_exe w)
  end.

(** [subprocess.run(cmd, check=True, capture_output=capture)]: the
    captured [(stdout, stderr)] of a process that exits with 0;
    [CalledProcessError] on any other exit status, carrying the output
    only when it was captured. *)
Definition subprocess_run (cmd : list string) (capture : bool)
  : M Sys (option string * option string) :=
  record (Call_subprocess_run cmd) ;;
  match process w cmd with
  | SpawnFailed e => raise e
  | Exited rc out err wrote =>
      modify (with_fs (Os.create_if wrote (last cmd ""))) ;;
      let so := if capture then Some out else None in
      let se := if capture then Some err else None in
      if (rc =? 0)%Z then ret (so, se)
      else raise (CalledProcessError rc cmd so se)
  end.

(** [VideoFileClip(path)]. *)
Definition VideoFileClip (path : string) : M Sys VideoFileClip_obj :=
  record (Call_VideoFileClip path) ;;
  c <- of_sum (open_clip w path) ;;
  modify (with_handle Open) ;;
  ret c.

(** [clip.audio.write_audiofile(path, codec=codec)]. *)
Definition write_audiofile (path codec : string) : M Sys unit :=
  record (Call_write_audiofile path codec) ;;
  let r := write_audio w path in
  modify (with_fs (Os.create_if (file_written r) path)) ;;
  of_error (raised r).

(** [clip.close()]. *)
Definition close : M Sys unit :=
  record Call_close ;;
  n <- gets close_calls ;;
  modify with_close_call ;;
  of_error (close_clip w n) ;;
  modify (with_handle Closed).

(** [init_df(model_path, post_filter=True)], reduced to the sample rate
    of the state it returns. *)
Definition init_df (model_path : string) : M Sys Z :=
  record (Call_init_df model_path) ;;
  of_sum (df_init w model_path).

(** [load_audio(path, sr=sr)], reduced to the samples. *)
Definition load_audio (path : string) (sr : Z) : M Sys Tensor :=
  record (Call_load_audio path sr) ;;
  of_sum (df_load w path sr).

(** [enhance(model, df_state, audio, atten_lim_db=a)]. *)
Definition enhance (audio_in : Tensor) (a : option Z) : M Sys (option Tensor) :=
  record (Call_enhance audio_in a) ;;
  of_sum (df_enhance w audio_in a).

(** [save_audio(path, audio, sr=sr)]. *)
Definition save_audio (path : string) (t : Tensor) (sr : Z) : M Sys unit :=
  record (Call_save_audio path t sr) ;;
  let r := df_save w path t sr in
  modify (with_fs (Os.create_if (file_written r) path)) ;;
  of_error (raised r).

Definition time_sleep : M Sys unit := record Call_sleep.

Definition os_path_exists (p : string) : M Sys bool :=
  gets (fun s => Os.exists_ p (fs s)).

Definition os_listdir (d : string) : M Sys (list string) :=
  record (Call_listdir d) ;;
  of_error (listdir_error w d) ;;
  gets (fun s => Os.listdir d (fs s)).

Definition os_remove (p : string) : M Sys unit :=
  record (Call_remove p) ;;
  of_error (remove_error w p) ;;
  modify (with_fs (Os.delete p)).

(** [os.rmdir(d)]: refused on a directory that still has entries. *)
Definition os_rmdir (d : string) : M Sys unit :=
  record (Call_rmdir d) ;;
  of_error (rmdir_error w d) ;;
  l <- gets (fun s => Os.listdir d (fs s)) ;;
  match l with
  | [] => modify (with_fs (Os.delete d))
  | _ :: _ => raise (OSError "Directory not empty")
  end.

(** [pyqtSignal(...)] as deep.py binds it: Qt's signal when the imports
    succeeded, [lambda *args, **kwargs: None] otherwise. *)
Definition pyqtSignal (signature : string) : option pyqtBoundSignal :=
  if DEEPFILTER_AVAILABLE w then Some {| signal := "2" ++ signature |}
  else None.

(** [sig.emit(...)]; on [None] the attribute lookup fails. *)
Definition emit (sig : option pyqtBoundSignal) (a : action) : M Sys unit :=
  match sig with
  | Some _ => record a
  | None => raise (AttributeError "'NoneType' object has no attribute 'emit'")
  end.

(** [sig.signal]. *)
Definition get_signal (sig : option pyqtBoundSignal) : M Sys string :=
  match sig with
  | Some b => ret (signal b)
  | None => raise (AttributeError "'NoneType' object has no attribute 'signal'")
  end.

(** [resource_path(relative_path)]. *)
Definition resource_path (relative_path : string) : string :=
  let base_path :=
    match sys_MEIPASS w with
    | Some p => p
    | None => abspath_dot w
    end in
  Os.path_join base_path relative_path.

(** [remux(source_path)].  [str(Path(d) / name)] is [os.path.join(d, name)]
    for the normalised absolute [d] that [mkdtemp] returns. *)
Definition remux_cmd (ffmpeg source_path out_path : string) : list string :=
  [ ffmpeg; "-y"; "-ignore_editlist"; "1"; "-i"; source_path;
    "-map"; "0:v"; "-map"; "0:a?"; "-c"; "copy";
    "-movflags"; "+faststart"; out_path ].

Definition remux (source_path : string) : M Sys string :=
  d <- tempfile_mkdtemp ;;
  let out_path := Os.path_join d ("remux_" ++ Os.Path_name source_path) in
  ffmpeg <- which_or_get_ffmpeg_exe ;;
  let cmd := remux_cmd ffmpeg source_path out_path in
  subprocess_run cmd false ;;
  ret out_path.

End Libraries.

(* ===================================================================== *)
(** ** class DenoiseWorker                                                *)
(* ===================================================================== *)

(** The attributes [__init__] gives a worker. *)
Record DenoiseWorker : Type := {
  input_video : string;
  output_video : string;
  atten_lim_db : option Z;
  _is_running : bool;
  video_clip : option VideoFileClip_obj
}.

(** [self.video_clip = c]. *)
Definition set_video_clip (c : option VideoFileClip_obj) (o : DenoiseWorker)
  : DenoiseWorker :=
  {| input_video := input_video o; output_video := output_video o;
     atten_lim_db := atten_lim_db o; _is_running := _is_running o;
     video_clip := c |}.

(** [stop(self)]. *)
Definition stop (o : DenoiseWorker) : DenoiseWorker :=
  {| input_video := input_video o; output_video := output_video o;
     atten_lim_db := atten_lim_db o; _is_running := false;
     video_clip := video_clip o |}.

(** The state [run] works on: the machine, the worker object and the
    local [temp_dir]. *)
Record Frame : Type := {
  sys : Sys;
  self : DenoiseWorker;
  temp_dir : option string
}.

Definition on_sys (f : Sys -> Sys) (fr : Frame) : Frame :=
  {| sys := f (sys fr); self := self fr; temp_dir := temp_dir fr |}.

Definition on_self (f : DenoiseWorker -> DenoiseWorker) (fr : Frame) : Frame :=
  {| sys := sys fr; self := f (self fr); temp_dir := temp_dir fr |}.

Definition set_temp_dir (d : option string) (fr : Frame) : Frame :=
  {| sys := sys fr; self := self fr; temp_dir := d |}.

(** A library call made from inside [run]. *)
Definition lift {A} (m : M Sys A) : M Frame A :=
  fun fr =>
    match m (sys fr) with
    | (c, s') => (c, on_sys (fun _ => s') fr)
    end.

Section Worker.

Variable w : World.

(** The class attributes [progress], [finished] and [error]. *)
Definition progress : option pyqtBoundSignal := pyqtSignal w "progress(int)".
Definition finished : option pyqtBoundSignal :=
  pyqtSignal w "finished(QString,QString)".
Definition error : option pyqtBoundSignal := pyqtSignal w "error(QString)".

Definition progress_emit (n : Z) : M Frame unit :=
  lift (emit progress (Emit_progress n)).
Definition finished_emit (out msg : string) : M Frame unit :=
  lift (emit finished (Emit_finished out msg)).
Definition error_emit (msg : string) : M Frame unit :=
  lift (emit error (Emit_error msg)).

(** [not self.error.signal]. *)
Definition not_error_signal : M Frame bool :=
  s <- lift (get_signal error) ;;
  ret (negb (truthy s)).

(** The GUI thread has called [stop()] by the time the log has [now]
    entries. *)
Definition stop_called (now : nat) : bool :=
  match stop_at w with
  | Some k => (k <=? now)%nat
  | None => false
  end.

(** Reading [self._is_running]: a [stop()] that the GUI thread has called
    by now has taken effect. *)
Definition read_is_running : M Frame bool :=
  now <- gets (fun fr => length (log (sys fr))) ;;
  (if stop_called now then modify (on_self stop) else ret tt) ;;
  gets (fun fr => _is_running (self fr)).

(** [if not self._is_running: return]. *)
Definition return_if_stopped : M Frame unit :=
  r <- read_is_running ;;
  if negb r then return_ else ret tt.

(** [self.video_clip.audio]. *)
Definition video_clip_audio : M Frame clip_audio :=
  vc <- gets (fun fr => video_clip (self fr)) ;;
  match vc with
  | Some c => ret (audio c)
  | None => raise (AttributeError "'NoneType' object has no attribute 'audio'")
  end.

(** [__init__(self, input_video, output_video, atten_lim_db)]. *)
Definition __init__ (input output : string) (atten : option Z)
  : M Sys DenoiseWorker :=
  sanitized <- remux w input ;;
  ret {| input_video := sanitized; output_video := output;
         atten_lim_db := atten; _is_running := true; video_clip := None |}.

(** [_cleanup(self, temp_dir)]. *)
Definition _cleanup (d : string) : M Sys unit :=
  time_sleep ;;
  try_except
    (ex <- os_path_exists d ;;
     if ex then
       names <- os_listdir w d ;;
       for_ names (fun filename =>
         let file_path := Os.path_join d filename in
         try_except (os_remove w file_path) is_OSError (fun _ => ret tt)) ;;
       try_except (os_rmdir w d) is_OSError (fun _ => ret tt)
     else ret tt)
    any_Exception (fun _ => ret tt).

(** The argument vector of the final ffmpeg call of [run]. *)
Definition replace_audio_cmd (ffmpeg_exe video enhanced out : string)
  : list string :=
  [ ffmpeg_exe; "-y"; "-ignore_editlist"; "1";
    "-i"; video; "-i"; enhanced;
    "-map"; "0:v:0"; "-map"; "1:a:0";
    "-c:v"; "copy"; "-c:a"; "aac"; "-b:a"; "320k";
    "-shortest"; out ].

(** The three [except] clauses of the ffmpeg step, in the source's order. *)
Definition ffmpeg_handler (e : exn) : M Frame unit :=
  if is_FileNotFoundError e then
    error_emit "FFmpeg executable not found." ;; return_
  else match e with
  | CalledProcessError _ _ so se =>
      error_emit ("FFmpeg error:" ++ nl
                  ++ fmt (or_ (or_ se so) (Some "Unknown FFmpeg error"))) ;;
      return_
  | _ =>
      error_emit ("Unexpected error during FFmpeg processing: " ++ str e) ;;
      return_
  end.

(** The body of the outer [try] of [run]. *)
Definition run_try : M Frame unit :=
  d <- lift (tempfile_mkdtemp w) ;;
  modify (set_temp_dir (Some d)) ;;
  let original_audio_path := Os.path_join d "temp_original_audio.wav" in
  let enhanced_audio_path := Os.path_join d "temp_enhanced_audio.wav" in
  progress_emit 5 ;;
  (* 1. Extract Audio *)
  modify (on_self (set_video_clip None)) ;;
  try_except
    (* a constructor call never yields None: the [is None] test is dead *)
    (iv <- gets (fun fr => input_video (self fr)) ;;
     c <- lift (VideoFileClip w iv) ;;
     modify (on_self (set_video_clip (Some c))))
    any_Exception
    (fun clip_error =>
       error_emit ("Failed to open input video:" ++ nl ++ str clip_error) ;;
       return_) ;;
  a <- video_clip_audio ;;
  (match a with
   | NoAudio => error_emit "Input video has no audio track."
   | AudioWithoutWriter =>
       error_emit "Internal error during audio processing (MoviePy)."
   | Audio =>
       try_except
         (lift (write_audiofile w original_audio_path "pcm_s16le") ;;
          progress_emit 20)
         any_Exception
         (fun audio_write_error =>
            error_emit ("Failed to extract audio:" ++ nl
                        ++ str audio_write_error) ;;
            return_)
   end) ;;
  (* Close clip immediately after use *)
  vc <- gets (fun fr => video_clip (self fr)) ;;
  (match vc with
   | Some _ => lift (close w) ;; modify (on_self (set_video_clip None))
   | None => ret tt
   end) ;;
  ex <- lift (os_path_exists original_audio_path) ;;
  (if negb ex then
     b <- not_error_signal ;;
     (if b then error_emit "Audio extraction failed (no output file)."
      else ret tt) ;;
     return_
   else ret tt) ;;
  return_if_stopped ;;
  (* 2. Denoise Audio using DeepFilterNet *)
  let model_path := resource_path w "models/DeepFilterNet3" in
  sr <- lift (init_df w model_path) ;;
  audio_in <- lift (load_audio w original_audio_path sr) ;;
  progress_emit 40 ;;
  return_if_stopped ;;
  att <- gets (fun fr => atten_lim_db (self fr)) ;;
  enhanced_audio <- lift (enhance w audio_in att) ;;
  progress_emit 70 ;;
  return_if_stopped ;;
  (match enhanced_audio with
   | None => error_emit "Denoising produced no audio data." ;; return_
   | Some t =>
       try_except
         (lift (save_audio w enhanced_audio_path t sr) ;;
          progress_emit 80)
         any_Exception
         (fun save_error =>
            error_emit ("Failed to save denoised audio:" ++ nl
                        ++ str save_error) ;;
            return_)
   end) ;;
  return_if_stopped ;;
  (* 3. Replace Audio in Video using direct FFmpeg call *)
  iv <- gets (fun fr => input_video (self fr)) ;;
  ov <- gets (fun fr => output_video (self fr)) ;;
  try_except
    (ffmpeg_exe <- lift (of_sum (get_ffmpeg_exe w)) ;;
     let cmd := replace_audio_cmd ffmpeg_exe iv enhanced_audio_path ov in
     lift (subprocess_run w cmd true) ;;
     ret tt)
    any_Exception ffmpeg_handler ;;
  progress_emit 100 ;;
  finished_emit ov ("Successfully denoised and saved to:" ++ nl ++ ov).

(** The [except Exception as e] clause of the outer [try]. *)
Definition run_except (e : exn) : M Frame unit :=
  b <- not_error_signal ;;
  if b then error_emit ("An unexpected error occurred:" ++ nl ++ str e)
  else ret tt.

(** The [finally] clause of the outer [try]. *)
Definition run_finally : M Frame unit :=
  vc <- gets (fun fr => video_clip (self fr)) ;;
  (match vc with
   | Some _ => try_except (lift (close w)) any_Exception (fun _ => ret tt)
   | None => ret tt
   end) ;;
  td <- gets temp_dir ;;
  match td with
  | Some d => if truthy d then lift (call (_cleanup d)) else ret tt
  | None => ret tt
  end.

(** [run(self)]. *)
Definition run : M Frame unit :=
  if negb (DEEPFILTER_AVAILABLE w) then
    error_emit
      "Core dependencies (deepfilternet, moviepy, imageio_ffmpeg) not found." ;;
    return_
  else
    modify (set_temp_dir None) ;;
    try_finally (try_except run_try any_Exception run_except) run_finally.

(** The machine before the job. *)
Definition boot : Sys :=
  {| fs := initial_fs w; log := []; mkdtemp_calls := 0; close_calls := 0;
     handle := NeverOpened |}.

(** [sig.connect(slot)]. *)
Definition connect (sig : option pyqtBoundSignal) : M Frame unit :=
  match sig with
  | Some _ => ret tt
  | None => raise (AttributeError "'NoneType' object has no attribute 'connect'")
  end.

(** [worker.start()] and the thread it starts. *)
Definition start : M Frame unit := call run.

(** What a job leaves behind: how it ended (with the exception that left
    [__init__], [connect] or [run], if any), the machine, the worker object
    when it was constructed, and the last value of [run]'s [temp_dir]. *)
Record Outcome : Type := {
  ending : completion unit;
  machine : Sys;
  worker : option DenoiseWorker;
  workspace : option string
}.

(** The signals of a constructed worker are connected and its thread is
    started. *)
Definition launch (o : DenoiseWorker) (s : Sys) : Outcome :=
  match (connect progress ;; connect finished ;; connect error ;; start)
          {| sys := s; self := o; temp_dir := None |} with
  | (c, fr) =>
      {| ending := c; machine := sys fr; worker := Some (self fr);
         workspace := temp_dir fr |}
  end.

(** One job, as the end of [start_denoising] submits it: the worker is
    constructed, then launched. *)
Definition job (input output : string) (atten : option Z) : Outcome :=
  match __init__ input output atten boot with
  | (Normal o, s) => launch o s
  | (Return_, s) =>
      {| ending := Normal tt; machine := s; worker := None; workspace := None |}
  | (Raise e, s) =>
      {| ending := Raise e; machine := s; worker := None; workspace := None |}
  end.

End Worker.

(* ===================================================================== *)
(** ** Reading a log                                                      *)
(* ===================================================================== *)

(** The percentages delivered on [progress], in order. *)
Fixpoint progress_of (l : list action) : list Z :=
  match l with
  | [] => []
  | Emit_progress n :: r => n :: progress_of r
  | _ :: r => progress_of r
  end.

(** The messages delivered on [error], in order. *)
Fixpoint errors_of (l : list action) : list string :=
  match l with
  | [] => []
  | Emit_error m :: r => m :: errors_of r
  | _ :: r => errors_of r
  end.

(** The completions delivered on [finished], in order. *)
Fixpoint finished_of (l : list action) : list (string * string) :=
  match l with
  | [] => []
  | Emit_finished o m :: r => (o, m) :: finished_of r
  | _ :: r => finished_of r
  end.

(** A terminal event: a completion or an error.  The worker has no signal
    for a cancellation. *)
Definition is_terminal (a : action) : bool :=
  match a with Emit_finished _ _ | Emit_error _ => true | _ => false end.

Definition terminals (l : list action) : list action := filter is_terminal l.

(** The signals of a log, without the calls. *)
Definition is_signal (a : action) : bool :=
  match a with
  | Emit_progress _ | Emit_finished _ _ | Emit_error _ => true
  | _ => false
  end.

Definition signals (l : list action) : list action := filter is_signal l.

(** The calls into DeepFilterNet's model, the writer of the enhanced audio
    and ffmpeg. *)
Definition is_model_call (a : action) : bool :=
  match a with
  | Call_init_df _ | Call_load_audio _ _ | Call_enhance _ _ => true
  | _ => false
  end.

Definition is_save_call (a : action) : bool :=
  match a with Call_save_audio _ _ _ => true | _ => false end.

Definition is_subprocess_call (a : action) : bool :=
  match a with Call_subprocess_run _ => true | _ => false end.

(** The ffmpeg command lines run, in order. *)
Fixpoint subprocess_runs (l : list action) : list (list string) :=
  match l with
  | [] => []
  | Call_subprocess_run c :: r => c :: subprocess_runs r
  | _ :: r => subprocess_runs r
  end.

(** The calls [_cleanup] makes. *)
Definition is_cleanup_call (a : action) : bool :=
  match a with
  | Call_sleep | Call_listdir _ | Call_remove _ | Call_rmdir _ => true
  | _ => false
  end.

(** The entry just before the first [Emit_progress n] of a log. *)
Fixpoint before_progress (n : Z) (prev : option action) (l : list action)
  : option action :=
  match l with
  | [] => None
  | Emit_progress m :: r =>
      if (m =? n)%Z then prev else before_progress n (Some (Emit_progress m)) r
  | a :: r => before_progress n (Some a) r
  end.

(** The fixed checkpoints of a job. *)
Definition checkpoints : list Z := [5; 20; 40; 70; 80; 100]%Z.

(** The entry just before the first [Emit_progress n], when there is one,
    satisfies [P]. *)
Definition checkpoint_follows (n : Z) (P : action -> bool) (l : list action)
  : bool :=
  match before_progress n None l with
  | Some a => P a
  | None => negb (existsb (Z.eqb n) (progress_of l))
  end.

Definition is_mkdtemp_call (a : action) : bool :=
  match a with Call_mkdtemp => true | _ => false end.

Definition is_write_audiofile_call (a : action) : bool :=
  match a with Call_write_audiofile _ _ => true | _ => false end.

Definition is_load_audio_call (a : action) : bool :=
  match a with Call_load_audio _ _ => true | _ => false end.

Definition is_enhance_call (a : action) : bool :=
  match a with Call_enhance _ _ => true | _ => false end.

(** The positions of a log (counted from [i]) whose entry satisfies [P]. *)
Fixpoint positions (P : action -> bool) (i : nat) (l : list action)
  : list nat :=
  match l with
  | [] => []
  | a :: r => if P a then i :: positions P (S i) r else positions P (S i) r
  end.

(** The first call of each of the five stages: ffmpeg (sanitize and
    remux-back), opening the clip (extraction), loading the model and
    running it (enhancement), writing the enhanced audio (persist). *)
Definition is_stage_start (a : action) : bool :=
  match a with
  | Call_subprocess_run _ | Call_VideoFileClip _ | Call_init_df _
  | Call_enhance _ _ | Call_save_audio _ _ _ => true
  | _ => false
  end.

(** The same without the opening of the clip. *)
Definition is_guarded_start (a : action) : bool :=
  match a with
  | Call_subprocess_run _ | Call_init_df _
  | Call_enhance _ _ | Call_save_audio _ _ _ => true
  | _ => false
  end.

(** The path a call is told to write, if any; ffmpeg writes its last
    argument. *)
Definition target (a : action) : option string :=
  match a with
  | Call_subprocess_run cmd => Some (last cmd "")
  | Call_write_audiofile p _ => Some p
  | Call_save_audio p _ _ => Some p
  | _ => None
  end.

(** The calls of a log that are told to write [p]. *)
Definition writes_to (p : string) (l : list action) : list action :=
  filter (fun a => match target a with Some q => q =? p | None => false end) l.

(** The worker has read its stop flag as set: the run ended at one of
    its cancellation checks. *)
Definition cancelled (r : Outcome) : bool :=
  match worker r with
  | Some o => negb (_is_running o)
  | None => false
  end.

(** The message of a completion. *)
Definition success_message (o : string) : string :=
  "Successfully denoised and saved to:" ++ nl ++ o.


(* ===================================================================== *)
(** ** Some worlds                                                        *)
(* ===================================================================== *)

Module Worlds.

(** A machine on which every call succeeds, up to the given answers of
    ffmpeg, MoviePy's opening and closing of the clip, the model, the writer
    of the enhanced audio and the GUI thread. *)
Definition world (proc : list string -> proc_outcome)
                 (clip : exn + VideoFileClip_obj)
                 (enh : Tensor -> exn + option Tensor)
                 (save : write_result)
                 (stop : option nat) : World :=
  {| DEEPFILTER_AVAILABLE := true;
     sys_MEIPASS := None;
     abspath_dot := "/app";
     initial_fs := ["/home/u/in.mp4"];
     mkdtemp := fun n => inr (match n with
                              | 0 => "/tmp/tmpa1b2c3d4"
                              | _ => "/tmp/tmpe5f6g7h8"
                              end);
     which_ffmpeg := Some "/usr/bin/ffmpeg";
     get_ffmpeg_exe := inr "/opt/imageio/ffmpeg";
     process := proc;
     open_clip := fun _ => clip;
     write_audio := fun _ => {| raised := None; file_written := true |};
     close_clip := fun _ => None;
     df_init := fun _ => inr 48000%Z;
     df_load := fun _ _ => inr [12; -7; 3]%Z;
     df_enhance := fun t _ => enh t;
     df_save := fun _ _ _ => save;
     listdir_error := fun _ => None;
     remove_error := fun _ => None;
     rmdir_error := fun _ => None;
     stop_at := stop |}.

Definition ffmpeg_ok (_ : list string) : proc_outcome := Exited 0 "" "" true.

Definition ffmpeg_fails (_ : list string) : proc_outcome :=
  Exited 1 "" "moov atom not found" false.

Definition with_audio : exn + VideoFileClip_obj := inr {| audio := Audio |}.
Definition without_audio : exn + VideoFileClip_obj := inr {| audio := NoAudio |}.

Definition denoised (t : Tensor) : exn + option Tensor := inr (Some t).
Definition saved : write_result := {| raised := None; file_written := true |}.

(** Every call succeeds and nobody stops the worker. *)
Definition fine : World := world ffmpeg_ok with_audio denoised saved None.

(** [stop()] arrives once the audio is extracted (eight log entries). *)
Definition stopped_after_extraction : World :=
  world ffmpeg_ok with_audio denoised saved (Some 8).

(** [stop()] arrives as soon as the worker exists (two log entries). *)
Definition stopped_at_once : World :=
  world ffmpeg_ok with_audio denoised saved (Some 2).

(** The sanitizing ffmpeg exits with status 1. *)
Definition broken_container : World :=
  world ffmpeg_fails with_audio denoised saved None.

(** The container has no audio stream. *)
Definition silent_film : World :=
  world ffmpeg_ok without_audio denoised saved None.

(** The model raises during inference. *)
Definition model_raises : World :=
  world ffmpeg_ok with_audio
        (fun _ => inl (RuntimeError "CUDA out of memory")) saved None.

(** The model returns [None]. *)
Definition model_returns_none : World :=
  world ffmpeg_ok with_audio (fun _ => inr None) saved None.

(** The model returns a tensor without samples, which the writer accepts. *)
Definition model_returns_empty : World :=
  world ffmpeg_ok with_audio (fun _ => inr (Some [])) saved None.

(** The writer of the enhanced audio raises. *)
Definition disk_full : World :=
  world ffmpeg_ok with_audio denoised
        {| raised := Some (OSError "No space left on device");
           file_written := false |} None.

Definition input : string := "/home/u/in.mp4".
Definition output : string := "/home/u/out.mp4".

End Worlds.

(* ===================================================================== *)
(** ** Notions used to state what [_cleanup] does                         *)
(* ===================================================================== *)

(** A stretch of execution that only makes cleanup calls: it emits
    nothing, leaves the media handle alone and creates no path. *)
Definition quiet (s s' : Sys) : Prop :=
  exists l,
    log s' = (log s ++ l)%list /\
    Forall (fun a => is_cleanup_call a = true) l /\
    handle s' = handle s /\
    (forall p, In p (fs s') -> In p (fs s)).

(** A list of cleanup calls. *)
Definition only_cleanup (l : list action) : Prop :=
  Forall (fun a => is_cleanup_call a = true) l.

(** The removal loop of [_cleanup]. *)
Definition remove_all (w : World) (d : string) (names : list string)
  : M Sys unit :=
  for_ names (fun filename =>
    let file_path := Os.path_join d filename in
    try_except (os_remove w file_path) is_OSError (fun _ => ret tt)).

(** No removal is refused. *)
Definition removals_succeed (w : World) : Prop :=
  (forall d, listdir_error w d = None) /\
  (forall p, remove_error w p = None) /\
  (forall d, rmdir_error w d = None).

(** Every call of a job succeeds and nobody stops the worker. *)
Definition every_call_succeeds (w : World) : Prop :=
  (forall p, open_clip w p = inr {| audio := Audio |}) /\
  (forall p, write_audio w p = {| raised := None; file_written := true |}) /\
  (forall n, close_clip w n = None) /\
  (forall p, exists sr, df_init w p = inr sr) /\
  (forall p sr, exists t, df_load w p sr = inr t) /\
  (forall t a, exists t', df_enhance w t a = inr (Some t')) /\
  (forall p t sr, raised (df_save w p t sr) = None) /\
  (exists exe, get_ffmpeg_exe w = inr exe) /\
  (forall cmd, exists so se wr, process w cmd = Exited 0 so se wr) /\
  stop_at w = None.

(** More worlds: [Worlds.fine] with some answers replaced. *)
Module Faults.

Definition faulty (available : bool)
                  (init : string -> exn + Z)
                  (load : string -> Z -> exn + Tensor)
                  (write : string -> write_result)
                  (proc : list string -> proc_outcome)
                  (rm : string -> option exn) : World :=
  {| DEEPFILTER_AVAILABLE := available;
     sys_MEIPASS := None;
     abspath_dot := "/app";
     initial_fs := ["/home/u/in.mp4"];
     mkdtemp := fun n => inr (match n with
                              | 0 => "/tmp/tmpa1b2c3d4"
                              | _ => "/tmp/tmpe5f6g7h8"
                              end);
     which_ffmpeg := Some "/usr/bin/ffmpeg";
     get_ffmpeg_exe := inr "/opt/imageio/ffmpeg";
     process := proc;
     open_clip := fun _ => inr {| audio := Audio |};
     write_audio := write;
     close_clip := fun _ => None;
     df_init := init;
     df_load := load;
     df_enhance := fun t _ => inr (Some t);
     df_save := fun _ _ _ => {| raised := None; file_written := true |};
     listdir_error := fun _ => None;
     remove_error := rm;
     rmdir_error := fun _ => None;
     stop_at := None |}.

Definition model_found (_ : string) : exn + Z := inr 48000%Z.
Definition audio_loaded (_ : string) (_ : Z) : exn + Tensor :=
  inr [12; -7; 3]%Z.
Definition written (_ : string) : write_result :=
  {| raised := None; file_written := true |}.
Definition removed (_ : string) : option exn := None.

(** The imports of deep.py failed. *)
Definition no_dependencies : World :=
  faulty false model_found audio_loaded written Worlds.ffmpeg_ok removed.



(** The extraction raises. *)
Definition unwritable_audio : World :=
  faulty true model_found audio_loaded
         (fun _ => {| raised := Some (OSError "No space left on device");
                      file_written := false |})
         Worlds.ffmpeg_ok removed.

(** The extraction returns, but there is no file. *)
Definition silent_writer : World :=
  faulty true model_found audio_loaded
         (fun _ => {| raised := None; file_written := false |})
         Worlds.ffmpeg_ok removed.

(** The sanitizing ffmpeg (15 arguments) works, the final one (20
    arguments) exits with status 1. *)
Definition last_ffmpeg_fails : World :=
  faulty true model_found audio_loaded written
         (fun cmd => if (length cmd =? 20)%nat
                     then Exited 1 "" "Conversion failed!" false
                     else Exited 0 "" "" true)
         removed.

(** The extracted audio cannot be removed. *)
Definition stubborn_file : World :=
  faulty true model_found audio_loaded written Worlds.ffmpeg_ok
         (fun p => if p =? "/tmp/job/temp_original_audio.wav"
                   then Some (OSError "Permission denied") else None).

(** A machine with a job directory of two files. *)
Definition two_files : Sys :=
  {| fs := ["/tmp/job/temp_enhanced_audio.wav";
            "/tmp/job/temp_original_audio.wav"; "/tmp/job";
            "/home/u/in.mp4"];
     log := []; mkdtemp_calls := 2; close_calls := 1; handle := Closed |}.

End Faults.

(* ===================================================================== *)
(** ** class VideoDenoiserApp                                             *)
(* ===================================================================== *)

(** The window: its attributes, the properties of its widgets that the
    handlers set or read, what it has shown and asked for so far, and the
    signals of its workers that Qt has queued for it.  The worker emits in
    its own thread, the window lives in the GUI thread: the connections of
    [start_denoising] are queued ones, and a slot runs when the event loop
    takes the signal out of the queue. *)

Module VideoDenoiserApp.

(** [s.lower()] and [s.endswith(suffix)], on the bytes of [s]: the letters
    A to Z are lowered, every other byte is kept. *)
Definition lower_char (c : ascii) : ascii :=
  let n := nat_of_ascii c in
  if ((65 <=? n) && (n <=? 90))%nat then ascii_of_nat (n + 32) else c.

Fixpoint lower (s : string) : string :=
  match s with
  | EmptyString => EmptyString
  | String c r => String (lower_char c) (lower r)
  end.

Definition endswith (s suffix : string) : bool :=
  let n := String.length s in
  let m := String.length suffix in
  ((m <=? n)%nat && (substring (n - m) m s =? suffix))%bool.

(** [os.path.basename(p)] (POSIX): what follows the last slash. *)
Definition basename (p : string) : string := last (Os.split_slash p) "".

Inductive widget : Type :=
| input_lineedit | output_lineedit | play_button | seek_slider
| atten_checkbox | atten_slider | atten_label | denoise_button
| progress_bar | status_label.

Definition widget_eqb (a b : widget) : bool :=
  match a, b with
  | input_lineedit, input_lineedit | output_lineedit, output_lineedit
  | play_button, play_button | seek_slider, seek_slider
  | atten_checkbox, atten_checkbox | atten_slider, atten_slider
  | atten_label, atten_label | denoise_button, denoise_button
  | progress_bar, progress_bar | status_label, status_label => true
  | _, _ => false
  end.

(** What the window does to the outside of its widgets. *)
Inductive gui_call : Type :=
| QMessageBox_warning (title text : string)
| QMessageBox_information (title text : string)
| QMessageBox_critical (title text : string)
| media_player_stop
| media_player_setSource (path : string)
| media_player_play
| media_player_pause
| New_DenoiseWorker (input_video output_video : string)
                    (atten_lim_db : option Z).

Record App : Type := {
  input_video_path : string;
  output_video_path : string;
  denoise_worker : option DenoiseWorker;
  isEnabled : widget -> bool;
  isVisible : widget -> bool;
  isChecked : widget -> bool;
  text : widget -> string;
  minimum : widget -> Z;
  maximum : widget -> Z;
  value : widget -> Z;
  calls : list gui_call;
  queued : list action
}.

Definition upd {A} (f : widget -> A) (k : widget) (v : A) : widget -> A :=
  fun k' => if widget_eqb k' k then v else f k'.

Definition set_input_video_path (p : string) (g : App) : App :=
  {| input_video_path := p; output_video_path := output_video_path g;
     denoise_worker := denoise_worker g; isEnabled := isEnabled g;
     isVisible := isVisible g; isChecked := isChecked g; text := text g;
     minimum := minimum g; maximum := maximum g; value := value g;
     calls := calls g; queued := queued g |}.

Definition set_output_video_path (p : string) (g : App) : App :=
  {| input_video_path := input_video_path g; output_video_path := p;
     denoise_worker := denoise_worker g; isEnabled := isEnabled g;
     isVisible := isVisible g; isChecked := isChecked g; text := text g;
     minimum := minimum g; maximum := maximum g; value := value g;
     calls := calls g; queued := queued g |}.

Definition set_denoise_worker (o : option DenoiseWorker) (g : App) : App :=
  {| input_video_path := input_video_path g;
     output_video_path := output_video_path g;
     denoise_worker := o; isEnabled := isEnabled g;
     isVisible := isVisible g; isChecked := isChecked g; text := text g;
     minimum := minimum g; maximum := maximum g; value := value g;
     calls := calls g; queued := queued g |}.

Definition setEnabled (k : widget) (b : bool) (g : App) : App :=
  {| input_video_path := input_video_path g;
     output_video_path := output_video_path g;
     denoise_worker := denoise_worker g; isEnabled := upd (isEnabled g) k b;
     isVisible := isVisible g; isChecked := isChecked g; text := text g;
     minimum := minimum g; maximum := maximum g; value := value g;
     calls := calls g; queued := queued g |}.

Definition setVisible (k : widget) (b : bool) (g : App) : App :=
  {| input_video_path := input_video_path g;
     output_video_path := output_video_path g;
     denoise_worker := denoise_worker g; isEnabled := isEnabled g;
     isVisible := upd (isVisible g) k b; isChecked := isChecked g;
     text := text g;
     minimum := minimum g; maximum := maximum g; value := value g;
     calls := calls g; queued := queued g |}.

Definition setChecked (k : widget) (b : bool) (g : App) : App :=
  {| input_video_path := input_video_path g;
     output_video_path := output_video_path g;
     denoise_worker := denoise_worker g; isEnabled := isEnabled g;
     isVisible := isVisible g; isChecked := upd (isChecked g) k b;
     text := text g;
     minimum := minimum g; maximum := maximum g; value := value g;
     calls := calls g; queued := queued g |}.

Definition setText (k : widget) (t : string) (g : App) : App :=
  {| input_video_path := input_video_path g;
     output_video_path := output_video_path g;
     denoise_worker := denoise_worker g; isEnabled := isEnabled g;
     isVisible := isVisible g; isChecked := isChecked g;
     text := upd (text g) k t;
     minimum := minimum g; maximum := maximum g; value := value g;
     calls := calls g; queued := queued g |}.

Definition set_value (k : widget) (v : Z) (g : App) : App :=
  {| input_video_path := input_video_path g;
     output_video_path := output_video_path g;
     denoise_worker := denoise_worker g; isEnabled := isEnabled g;
     isVisible := isVisible g; isChecked := isChecked g; text := text g;
     minimum := minimum g; maximum := maximum g;
     value := upd (value g) k v;
     calls := calls g; queued := queued g |}.

(** [QSlider.setValue] keeps the value inside the range of the slider;
    [QProgressBar.setValue] ignores a value outside of its range. *)
Definition setValue (k : widget) (v : Z) (g : App) : App :=
  match k with
  | progress_bar =>
      if ((minimum g k <=? v) && (v <=? maximum g k))%Z then set_value k v g
      else g
  | _ => set_value k (Z.max (minimum g k) (Z.min (maximum g k) v)) g
  end.

(** [QSlider.setRange(lo, hi)]: the value is brought into the new range. *)
Definition setRange (k : widget) (lo hi : Z) (g : App) : App :=
  let hi := Z.max lo hi in
  {| input_video_path := input_video_path g;
     output_video_path := output_video_path g;
     denoise_worker := denoise_worker g; isEnabled := isEnabled g;
     isVisible := isVisible g; isChecked := isChecked g; text := text g;
     minimum := upd (minimum g) k lo; maximum := upd (maximum g) k hi;
     value := upd (value g) k (Z.max lo (Z.min hi (value g k)));
     calls := calls g; queued := queued g |}.

Definition did (c : gui_call) (g : App) : App :=
  {| input_video_path := input_video_path g;
     output_video_path := output_video_path g;
     denoise_worker := denoise_worker g; isEnabled := isEnabled g;
     isVisible := isVisible g; isChecked := isChecked g; text := text g;
     minimum := minimum g; maximum := maximum g; value := value g;
     calls := (calls g ++ [c])%list; queued := queued g |}.

Definition set_queued (q : list action) (g : App) : App :=
  {| input_video_path := input_video_path g;
     output_video_path := output_video_path g;
     denoise_worker := denoise_worker g; isEnabled := isEnabled g;
     isVisible := isVisible g; isChecked := isChecked g; text := text g;
     minimum := minimum g; maximum := maximum g; value := value g;
     calls := calls g; queued := q |}.

(** Widgets as Qt makes them: enabled, visible once the window is shown,
    unchecked, without text; a slider ranges over 0..99 and stands at 0, a
    progress bar ranges over 0..100 and has no value (-1). *)
Definition blank : App :=
  {| input_video_path := ""; output_video_path := "";
     denoise_worker := None;
     isEnabled := fun _ => true; isVisible := fun _ => true;
     isChecked := fun _ => false; text := fun _ => "";
     minimum := fun _ => 0%Z;
     maximum := fun k => match k with progress_bar => 100%Z | _ => 99%Z end;
     value := fun k => match k with progress_bar => (-1)%Z | _ => 0%Z end;
     calls := []; queued := [] |}.

Section Handlers.

Variable w : World.

(** [update_denoise_button_state(self)]. *)
Definition update_denoise_button_state : M App unit :=
  i <- gets input_video_path ;;
  o <- gets output_video_path ;;
  let enabled := truthy i && truthy o && DEEPFILTER_AVAILABLE w in
  modify (setEnabled denoise_button enabled) ;;
  if negb (DEEPFILTER_AVAILABLE w) then
    modify (setText status_label
              "Error: Core dependencies missing. Cannot denoise.")
  else ret tt.

(** [__init__(self)], on the widgets above. *)
Definition __init__ : M App unit :=
  modify (set_input_video_path "") ;;
  modify (set_output_video_path "") ;;
  modify (set_denoise_worker None) ;;
  modify (setText play_button "Play") ;;
  modify (setEnabled play_button false) ;;
  modify (setEnabled seek_slider false) ;;
  modify (setText atten_checkbox
            ("Use Default Attenuation (Recommended)" ++ nl
             ++ "Lower = Better Sound Quality Retention" ++ nl
             ++ "Higher = Removing More Background Noise")) ;;
  modify (setChecked atten_checkbox true) ;;
  modify (setRange atten_slider 1 60) ;;
  modify (setValue atten_slider 30) ;;
  modify (setEnabled atten_slider false) ;;
  modify (setText atten_label "Limit: 30 dB") ;;
  modify (setVisible atten_label false) ;;
  modify (setText denoise_button "Denoise Video") ;;
  modify (setEnabled denoise_button false) ;;
  modify (setVisible progress_bar false) ;;
  modify (setText status_label "Select input and output files.") ;;
  update_denoise_button_state.

(** [browse_input(self)]; [fname] is the answer of the file dialog. *)
Definition browse_input (fname : string) : M App unit :=
  if truthy fname then
    modify (set_input_video_path fname) ;;
    modify (setText input_lineedit (basename fname)) ;;
    modify (did media_player_stop) ;;
    modify (did (media_player_setSource fname)) ;;
    modify (setEnabled play_button true) ;;
    modify (setEnabled seek_slider true) ;;
    modify (setText play_button "Play") ;;
    modify (setText status_label
              "Input video loaded. Ready to play or denoise.") ;;
    update_denoise_button_state ;;
    modify (did media_player_play) ;;
    modify (did media_player_pause) ;;
    modify (setValue seek_slider 0)
  else ret tt.

(** [browse_output(self)]; [fname] is the answer of the file dialog. *)
Definition browse_output (fname : string) : M App unit :=
  if truthy fname then
    let fname :=
      if negb (endswith (lower fname) ".mp4") then fname ++ ".mp4"
      else fname in
    modify (set_output_video_path fname) ;;
    modify (setText output_lineedit (basename fname)) ;;
    modify (setText status_label "Output path selected.") ;;
    update_denoise_button_state
  else ret tt.

(** [toggle_atten_slider(self, state)]; [Qt.CheckState.Checked.value] is 2. *)
Definition toggle_atten_slider (state : Z) : M App unit :=
  let use_default := (state =? 2)%Z in
  modify (setEnabled atten_slider (negb use_default)) ;;
  modify (setVisible atten_label (negb use_default)).

(** [update_atten_label(self, value)]. *)
Definition update_atten_label (v : Z) : M App unit :=
  modify (setText atten_label ("Limit: " ++ str_int v ++ " dB")).

(** [start_denoising(self)]; [isRunning] is the answer of
    [self.denoise_worker.isRunning()].  The last five lines are [job]: an
    exception of the constructor or of a [connect] leaves the handler, and
    the signals of a started worker are queued for the window. *)
Definition start_denoising (isRunning : bool) : M App unit :=
  i <- gets input_video_path ;;
  o <- gets output_video_path ;;
  (if negb (truthy i) || negb (truthy o) then
     modify (did (QMessageBox_warning "Missing Information"
                    "Please select both input and output video files.")) ;;
     return_
   else ret tt) ;;
  wk <- gets denoise_worker ;;
  (if match wk with Some _ => isRunning | None => false end then
     modify (did (QMessageBox_information "Busy"
                    "Denoising process is already running.")) ;;
     return_
   else ret tt) ;;
  checked <- gets (fun g => isChecked g atten_checkbox) ;;
  v <- gets (fun g => value g atten_slider) ;;
  let atten_limit := if negb checked then Some v else None in
  modify (setEnabled denoise_button false) ;;
  modify (setVisible progress_bar true) ;;
  modify (setValue progress_bar 0) ;;
  modify (setText status_label "Starting denoising process...") ;;
  modify (did (New_DenoiseWorker i o atten_limit)) ;;
  let r := job w i o atten_limit in
  match worker r with
  | None =>
      match ending r with Raise e => raise e | _ => ret tt end
  | Some o' =>
      modify (set_denoise_worker (Some o')) ;;
      match ending r with
      | Raise e => raise e
      | _ => modify (fun g => set_queued (queued g ++ signals (log (machine r))) g)
      end
  end.

(** [update_progress(self, value)]. *)
Definition update_progress (v : Z) : M App unit :=
  modify (setValue progress_bar v) ;;
  modify (setText status_label
            ("Denoising in progress... " ++ str_int v ++ "%")).

(** [denoising_finished(self, output_path, message)]. *)
Definition denoising_finished (output_path message : string) : M App unit :=
  modify (setVisible progress_bar false) ;;
  modify (setText status_label message) ;;
  modify (did (QMessageBox_information "Success" message)) ;;
  modify (setEnabled denoise_button true) ;;
  modify (did media_player_stop) ;;
  modify (did (media_player_setSource output_path)) ;;
  modify (setText play_button "Play Denoised") ;;
  modify (setEnabled play_button true) ;;
  modify (setEnabled seek_slider true).

(** [denoising_error(self, error_message)]. *)
Definition denoising_error (error_message : string) : M App unit :=
  modify (setVisible progress_bar false) ;;
  modify (setText status_label ("Error: " ++ error_message)) ;;
  modify (did (QMessageBox_critical "Denoising Error" error_message)) ;;
  modify (setEnabled denoise_button true).

(** The slot that [start_denoising] connected to a signal. *)
Definition slot (a : action) : M App unit :=
  match a with
  | Emit_progress v => update_progress v
  | Emit_finished p m => denoising_finished p m
  | Emit_error m => denoising_error m
  | _ => ret tt
  end.

(** What happens to the window: the user answers a file dialog, clicks
    the checkbox, drags the attenuation slider, clicks "Denoise Video", or
    the event loop delivers the next queued signal.  A disabled widget
    takes no input; the checkbox and the slider tell their slot the new
    state when it has changed. *)
Inductive event : Type :=
| Click_browse_input (fname : string)
| Click_browse_output (fname : string)
| Click_atten_checkbox
| Move_atten_slider (v : Z)
| Click_denoise (isRunning : bool)
| Deliver_signal.

Definition handle_event (ev : event) : M App unit :=
  match ev with
  | Click_browse_input fname => call (browse_input fname)
  | Click_browse_output fname => call (browse_output fname)
  | Click_atten_checkbox =>
      c <- gets (fun g => isChecked g atten_checkbox) ;;
      modify (setChecked atten_checkbox (negb c)) ;;
      call (toggle_atten_slider (if negb c then 2 else 0)%Z)
  | Move_atten_slider v =>
      en <- gets (fun g => isEnabled g atten_slider) ;;
      if en then
        old <- gets (fun g => value g atten_slider) ;;
        modify (setValue atten_slider v) ;;
        new <- gets (fun g => value g atten_slider) ;;
        if (new =? old)%Z then ret tt else call (update_atten_label new)
      else ret tt
  | Click_denoise isRunning =>
      en <- gets (fun g => isEnabled g denoise_button) ;;
      if en then call (start_denoising isRunning) else ret tt
  | Deliver_signal =>
      q <- gets queued ;;
      match q with
      | [] => ret tt
      | a :: rest => modify (set_queued rest) ;; call (slot a)
      end
  end.

(** The window after [__init__] and the given events; an exception that
    leaves a handler ends the session. *)
Definition session (events : list event) : completion unit * App :=
  (call __init__ ;; for_ events handle_event) blank.

End Handlers.

(** A job as the window may submit it: the dependencies were imported,
    an input was chosen, the output path ends in [.mp4] whatever the case
    of its letters, and the limit is absent or one of the slider's. *)
Definition well_formed_job (w : World) (c : gui_call) : Prop :=
  match c with
  | New_DenoiseWorker i o att =>
      DEEPFILTER_AVAILABLE w = true /\
      i <> "" /\ endswith (lower o) ".mp4" = true /\
      match att with None => True | Some v => (1 <= v <= 60)%Z end
  | _ => True
  end.

(** What every handler of the window keeps. *)
Record consistent (w : World) (g : App) : Prop := {
  slider_follows_checkbox :
    isEnabled g atten_slider = negb (isChecked g atten_checkbox);
  label_follows_checkbox :
    isVisible g atten_label = negb (isChecked g atten_checkbox);
  label_shows_value :
    text g atten_label = "Limit: " ++ str_int (value g atten_slider) ++ " dB";
  slider_range :
    minimum g atten_slider = 1%Z /\ maximum g atten_slider = 60%Z;
  value_in_range : (1 <= value g atten_slider <= 60)%Z;
  output_is_mp4 :
    output_video_path g = "" \/
    endswith (lower (output_video_path g)) ".mp4" = true;
  paths_chosen :
    isEnabled g denoise_button = true \/ queued g <> [] \/
    denoise_worker g <> None ->
    input_video_path g <> "" /\ output_video_path g <> "";
  dependencies_needed :
    DEEPFILTER_AVAILABLE w = false ->
    isEnabled g denoise_button = false /\ queued g = [] /\
    denoise_worker g = None;
  jobs_well_formed : Forall (well_formed_job w) (calls g)
}.

(** The window once the event loop has delivered the signals [q] that
    were queued for it. *)
Fixpoint drained (q : list action) (g : App) : App :=
  match q with
  | [] => g
  | a :: rest => drained rest (snd (call (slot a) (set_queued rest g)))
  end.

End VideoDenoiserApp.

(* ===================================================================== *)
(** ** Facts about paths and the file system                              *)
(* ===================================================================== *)

Module OsFacts.
Import Os.

Lemma append_empty_r (s : string) : s ++ "" = s.
Proof. induction s as [|c s IH]; simpl; [reflexivity | now rewrite IH]. Qed.

Lemma append_assoc (a b c : string) : (a ++ b) ++ c = a ++ (b ++ c).
Proof. induction a as [|x a IH]; simpl; [reflexivity | now rewrite IH]. Qed.

Lemma length_append (a b : string) :
  String.length (a ++ b) = String.length a + String.length b.
Proof. induction a as [|x a IH]; simpl; [reflexivity | now rewrite IH]. Qed.

Lemma strip_prefix_append (p n : string) : strip_prefix p (p ++ n) = Some n.
Proof.
  induction p as [|c p IH]; simpl; [reflexivity|].
  now rewrite Ascii.eqb_refl.
Qed.

Lemma strip_prefix_sound (p s n : string) :
  strip_prefix p s = Some n -> s = p ++ n.
Proof.
  revert s; induction p as [|c p IH]; intros s H; simpl in *.
  - now inversion H.
  - destruct s as [|b s]; [discriminate|].
    destruct (Ascii.eqb_spec c b) as [->|]; [|discriminate].
    now rewrite (IH _ H).
Qed.

(** Joining a name that does not start with a slash puts it behind the
    directory prefix. *)
Lemma path_join_prefix (d n : string) :
  starts_with_slash n = false -> path_join d n = path_join d "" ++ n.
Proof.
  intros Hn. unfold path_join. rewrite Hn. simpl.
  destruct ((d =? "") || ends_with_slash d).
  - now rewrite append_empty_r.
  - now rewrite append_assoc.
Qed.

Lemma has_slash_starts (n : string) :
  has_slash n = false -> starts_with_slash n = false.
Proof.
  destruct n as [|c n]; simpl; [reflexivity|].
  now intros H%orb_false_iff.
Qed.

Lemma path_join_longer (d n : string) :
  starts_with_slash n = false -> n <> "" -> path_join d n <> d.
Proof.
  intros Hn Hne E.
  assert (L : String.length (path_join d n) = String.length d) by now rewrite E.
  unfold path_join in L. rewrite Hn in L.
  destruct ((d =? "") || ends_with_slash d);
    rewrite ?length_append in L; simpl in L;
    destruct n; [congruence | simpl in L; lia | congruence | simpl in L; lia].
Qed.

Lemma exists_spec (p : string) (fs : FS) : exists_ p fs = true <-> In p fs.
Proof.
  unfold exists_. rewrite existsb_exists. split.
  - intros (q & Hq & E). now apply String.eqb_eq in E; subst.
  - intros H. exists p. split; [assumption | apply String.eqb_refl].
Qed.

Lemma exists_false (p : string) (fs : FS) : exists_ p fs = false <-> ~ In p fs.
Proof.
  rewrite <- exists_spec. now destruct (exists_ p fs).
Qed.

Lemma in_create (q p : string) (fs : FS) :
  In q (create p fs) <-> q = p \/ In q fs.
Proof.
  unfold create. destruct (exists_ p fs) eqn:E; simpl.
  - apply exists_spec in E. split; [auto | intros [->|]; assumption].
  - split; intros [H|H]; auto.
Qed.

Lemma in_delete (q p : string) (fs : FS) :
  In q (delete p fs) <-> q <> p /\ In q fs.
Proof.
  unfold delete. rewrite filter_In, negb_true_iff, String.eqb_neq. tauto.
Qed.

Lemma in_create_if (b : bool) (q p : string) (fs : FS) :
  In q fs -> In q (create_if b p fs).
Proof.
  unfold create_if. destruct b; [|auto]. intros H. apply in_create. now right.
Qed.

Lemma in_create_if_inv (b : bool) (q p : string) (fs : FS) :
  In q (create_if b p fs) -> q = p \/ In q fs.
Proof.
  unfold create_if. destruct b; [|auto]. apply in_create.
Qed.

Lemma exists_create_same (p : string) (fs : FS) :
  exists_ p (create p fs) = true.
Proof. apply exists_spec, in_create. now left. Qed.

Lemma taken_false (d : string) (fs : FS) :
  taken d fs = false -> forall p, In p fs -> at_or_under d p = false.
Proof.
  unfold taken. intros H p Hp.
  destruct (at_or_under d p) eqn:E; [|reflexivity].
  assert (existsb (at_or_under d) fs = true) by (apply existsb_exists; eauto).
  congruence.
Qed.

Lemma under_join (d n : string) :
  starts_with_slash n = false -> at_or_under d (path_join d n) = true.
Proof.
  intros Hn. unfold at_or_under.
  rewrite (path_join_prefix d n Hn), strip_prefix_append.
  apply orb_true_r.
Qed.

(** Nothing exists inside a directory that [mkdtemp] has just made. *)
Lemma fresh_child (d n : string) (fs : FS) :
  taken d fs = false -> starts_with_slash n = false -> n <> "" ->
  exists_ (path_join d n) (create d fs) = false.
Proof.
  intros Ht Hn Hne. apply exists_false. rewrite in_create.
  intros [E|Hin].
  - now apply (path_join_longer d n Hn Hne).
  - pose proof (taken_false _ _ Ht _ Hin) as F.
    now rewrite (under_join d n Hn) in F.
Qed.

(** With anything on the disk, the empty name is taken. *)
Lemma taken_empty (fs : FS) : fs <> [] -> taken "" fs = true.
Proof.
  destruct fs as [|p fs]; [congruence|]. intros _.
  unfold taken. simpl. unfold at_or_under. simpl.
  now rewrite orb_true_r.
Qed.

(** A directory that [mkdtemp] could make on a disk that is not empty has
    a name. *)
Lemma fresh_truthy (d x : string) (fs : FS) :
  In x fs -> taken d fs = false -> truthy d = true.
Proof.
  intros Hx Ht. destruct d; [|reflexivity].
  rewrite taken_empty in Ht; [discriminate|].
  intros ->. destruct Hx.
Qed.

Lemma create_not_nil (p : string) (fs : FS) : create p fs <> [].
Proof.
  unfold create. destruct (exists_ p fs) eqn:E; [|discriminate].
  intros ->. discriminate.
Qed.

Lemma entry_of_sound (d p n : string) :
  entry_of d p = Some n -> p = path_join d n /\ n <> "" /\ has_slash n = false.
Proof.
  unfold entry_of.
  destruct (strip_prefix (path_join d "") p) as [m|] eqn:E; [|discriminate].
  destruct (m =? "") eqn:Em; simpl; [discriminate|].
  destruct (has_slash m) eqn:Hs; [discriminate|].
  intros [= <-]. apply String.eqb_neq in Em.
  apply strip_prefix_sound in E. subst p.
  rewrite (path_join_prefix d m (has_slash_starts _ Hs)). auto.
Qed.

Lemma in_listdir (d n : string) (fs : FS) :
  In n (listdir d fs) -> In (path_join d n) fs.
Proof.
  induction fs as [|p fs IH]; simpl; [tauto|].
  destruct (entry_of d p) as [m|] eqn:E.
  - intros [<-|H]; [|right; auto].
    left. now destruct (entry_of_sound _ _ _ E) as (-> & _).
  - intros H. right. auto.
Qed.

Lemma listdir_in (d p n : string) (fs : FS) :
  In p fs -> entry_of d p = Some n -> In n (listdir d fs).
Proof.
  induction fs as [|q fs IH]; simpl; [tauto|].
  intros [->|H] E.
  - rewrite E. now left.
  - destruct (entry_of d q); [right|]; auto.
Qed.

Lemma listdir_nil (d : string) (fs : FS) :
  listdir d fs = [] <-> forall p, In p fs -> entry_of d p = None.
Proof.
  split.
  - intros H p Hp. destruct (entry_of d p) as [n|] eqn:E; [|reflexivity].
    pose proof (listdir_in _ _ _ _ Hp E) as F. now rewrite H in F.
  - intros H. induction fs as [|q fs IH]; simpl; [reflexivity|].
    rewrite (H q) by now left. apply IH. intros p Hp. apply H. now right.
Qed.

End OsFacts.

(* ===================================================================== *)
(** ** What [_cleanup] does                                               *)
(* ===================================================================== *)

Section Cleanup.

Variable w : World.

Lemma quiet_refl (s : Sys) : quiet s s.
Proof. exists []. rewrite app_nil_r. repeat split; auto. Qed.

Lemma quiet_trans (a b c : Sys) : quiet a b -> quiet b c -> quiet a c.
Proof.
  intros (l1 & L1 & F1 & H1 & S1) (l2 & L2 & F2 & H2 & S2).
  exists (l1 ++ l2)%list. repeat split.
  - now rewrite L2, L1, app_assoc.
  - now apply Forall_app.
  - congruence.
  - auto.
Qed.

Lemma quiet_record (a : action) (s : Sys) :
  is_cleanup_call a = true -> quiet s (with_log a s).
Proof.
  intros H. exists [a]. repeat split; auto.
Qed.

Lemma quiet_delete (p : string) (s : Sys) : quiet s (with_fs (Os.delete p) s).
Proof.
  exists []. simpl. rewrite app_nil_r. repeat split; auto.
  intros q Hq. now apply OsFacts.in_delete in Hq.
Qed.

Lemma quiet_record_delete (a : action) (p : string) (s : Sys) :
  is_cleanup_call a = true -> quiet s (with_fs (Os.delete p) (with_log a s)).
Proof.
  intros H. apply quiet_trans with (with_log a s).
  - now apply quiet_record.
  - apply quiet_delete.
Qed.

Lemma os_remove_quiet (p : string) (s : Sys) :
  quiet s (snd (try_except (os_remove w p) is_OSError (fun _ => ret tt) s)).
Proof.
  unfold try_except, os_remove, record, of_error, bind, modify, raise, ret.
  simpl.
  destruct (remove_error w p) as [e|]; simpl.
  - destruct (is_OSError e); simpl; now apply quiet_record.
  - now apply quiet_record_delete.
Qed.

Lemma os_rmdir_quiet (d : string) (s : Sys) :
  quiet s (snd (try_except (os_rmdir w d) is_OSError (fun _ => ret tt) s)).
Proof.
  unfold try_except, os_rmdir, record, of_error, bind, modify, raise, ret, gets.
  simpl.
  destruct (rmdir_error w d) as [e|]; simpl.
  - destruct (is_OSError e); simpl; now apply quiet_record.
  - destruct (Os.listdir d (fs s)); simpl.
    + now apply quiet_record_delete.
    + now apply quiet_record.
Qed.

Lemma remove_all_quiet (d : string) (names : list string) (s : Sys) :
  quiet s (snd (remove_all w d names s)).
Proof.
  unfold remove_all. revert s.
  induction names as [|n names IH]; intros s; simpl.
  - apply quiet_refl.
  - unfold bind at 1.
    pose proof (os_remove_quiet (Os.path_join d n) s) as Q.
    destruct (try_except (os_remove w (Os.path_join d n)) is_OSError
                (fun _ => ret tt) s) as [[u| |e] s1]; simpl in *; auto.
    eapply quiet_trans; [exact Q | apply IH].
Qed.

(** [_cleanup] spelled out on a state. *)
Lemma cleanup_unfold (d : string) (s : Sys) :
  let s0 := with_log Call_sleep s in
  let s1 := with_log (Call_listdir d) s0 in
  _cleanup w d s =
  if Os.exists_ d (fs s0) then
    match listdir_error w d with
    | Some _ => (Normal tt, s1)
    | None =>
        match remove_all w d (Os.listdir d (fs s1)) s1 with
        | (Normal _, s2) =>
            match try_except (os_rmdir w d) is_OSError (fun _ => ret tt) s2 with
            | (Raise _, s3) => (Normal tt, s3)
            | r => r
            end
        | (Return_, s2) => (Return_, s2)
        | (Raise _, s2) => (Normal tt, s2)
        end
    end
  else (Normal tt, s0).
Proof.
  intros s0 s1. unfold _cleanup.
  unfold time_sleep, try_except at 1, bind at 1, record at 1, modify at 1.
  fold s0. unfold bind at 1, os_path_exists, gets.
  destruct (Os.exists_ d (fs s0)); [|reflexivity].
  unfold bind at 1. unfold os_listdir. unfold bind at 1, bind at 1.
  unfold record, modify. fold s1.
  unfold of_error.
  destruct (listdir_error w d); [reflexivity|].
  unfold ret at 1, gets.
  fold (remove_all w d (Os.listdir d (fs s1))).
  unfold bind at 1.
  destruct (remove_all w d (Os.listdir d (fs s1)) s1) as [[u| |e] s2];
    reflexivity.
Qed.

Lemma remove_all_effect (d : string) (names : list string) (s : Sys) :
  removals_succeed w ->
  fst (remove_all w d names s) = Normal tt /\
  forall p, In p (fs (snd (remove_all w d names s))) ->
            In p (fs s) /\ forall n, In n names -> p <> Os.path_join d n.
Proof.
  intros (_ & R & _). unfold remove_all. revert s.
  induction names as [|n names IH]; intros s; simpl.
  - split; [reflexivity|]. intros p Hp. split; [assumption | tauto].
  - unfold bind at 1, try_except at 1, os_remove, record, of_error.
    unfold bind at 1, bind at 1, modify at 1.
    rewrite R. unfold ret at 1, modify at 1.
    destruct (IH (with_fs (Os.delete (Os.path_join d n))
                    (with_log (Call_remove (Os.path_join d n)) s)))
      as (N & E).
    split; [exact N|].
    intros p Hp. destruct (E p Hp) as (Hin & Hne).
    simpl in Hin. apply OsFacts.in_delete in Hin. destruct Hin as (Hd & Hin).
    split; [assumption|].
    intros m [<-|Hm]; auto.
Qed.

Lemma listdir_subset (d : string) (f g : Os.FS) :
  (forall p, In p g -> In p f) -> Os.listdir d f = [] -> Os.listdir d g = [].
Proof.
  rewrite !OsFacts.listdir_nil. auto.
Qed.

(** [_cleanup], called: it returns normally and is quiet; when no removal
    is refused, the directory is gone afterwards, and so is every file
    that lay directly in it. *)
Lemma call_cleanup (d : string) (s : Sys) :
  exists s',
    call (_cleanup w d) s = (Normal tt, s') /\
    quiet s s' /\
    (removals_succeed w ->
     Os.exists_ d (fs s') = false /\
     (Os.exists_ d (fs s) = true -> Os.listdir d (fs s') = [])).
Proof.
  unfold call. rewrite cleanup_unfold. cbv zeta.
  set (s0 := with_log Call_sleep s).
  set (s1 := with_log (Call_listdir d) s0).
  assert (Q0 : quiet s s0) by (apply quiet_record; reflexivity).
  assert (Q1 : quiet s s1)
    by (apply quiet_trans with s0; [exact Q0 | apply quiet_record; reflexivity]).
  change (fs s0) with (fs s).
  destruct (Os.exists_ d (fs s)) eqn:Ex.
  2:{ exists s0. split; [reflexivity|]. split; [exact Q0|].
      intros _. split; [exact Ex | discriminate]. }
  destruct (listdir_error w d) as [e|] eqn:LE.
  { exists s1. split; [reflexivity|]. split; [exact Q1|].
    intros (RL & _). rewrite RL in LE. discriminate. }
  pose proof (remove_all_quiet d (Os.listdir d (fs s1)) s1) as Q2.
  pose proof (remove_all_effect d (Os.listdir d (fs s1)) s1) as E2.
  destruct (remove_all w d (Os.listdir d (fs s1)) s1) as [c2 s2].
  simpl in Q2, E2.
  assert (Q2' : quiet s s2) by (eapply quiet_trans; eauto).
  pose proof (os_rmdir_quiet d s2) as Q3.
  assert (L2 : removals_succeed w -> Os.listdir d (fs s2) = []).
  { intros RS. destruct (E2 RS) as (_ & E).
    apply OsFacts.listdir_nil. intros p Hp.
    destruct (Os.entry_of d p) as [n|] eqn:En; [|reflexivity].
    destruct (E p Hp) as (Hin & Hne).
    destruct (OsFacts.entry_of_sound _ _ _ En) as (-> & _).
    exfalso. apply (Hne n); [|reflexivity].
    eapply OsFacts.listdir_in; eauto. }
  assert (E3 : removals_succeed w ->
               Os.exists_ d (fs (snd (try_except (os_rmdir w d) is_OSError
                                        (fun _ => ret tt) s2))) = false /\
               Os.listdir d (fs (snd (try_except (os_rmdir w d) is_OSError
                                        (fun _ => ret tt) s2))) = []).
  { intros RS. pose proof (L2 RS) as L. destruct RS as (_ & _ & RD).
    unfold try_except, os_rmdir, record, of_error, bind, modify, gets, ret.
    rewrite RD. simpl. rewrite L. simpl. split.
    - apply OsFacts.exists_false. rewrite OsFacts.in_delete. tauto.
    - apply listdir_subset with (fs s2); [|exact L].
      intros p Hp. now apply OsFacts.in_delete in Hp. }
  destruct c2 as [u| |e].
  - destruct (try_except (os_rmdir w d) is_OSError (fun _ => ret tt) s2)
      as [[[]| |e] s3]; simpl in *;
      (exists s3; split; [reflexivity|]; split;
       [eauto using quiet_trans | intros RS; split; [|intros _]; now apply E3]).
  - exists s2. split; [reflexivity|]. split; [exact Q2'|].
    intros RS. destruct (E2 RS). discriminate.
  - exists s2. split; [reflexivity|]. split; [exact Q2'|].
    intros RS. destruct (E2 RS). discriminate.
Qed.

(** The same, on [_cleanup] itself. *)
Lemma cleanup_spec (d : string) (s : Sys) :
  exists c s',
    _cleanup w d s = (c, s') /\
    (c = Normal tt \/ c = Return_) /\
    quiet s s' /\
    (removals_succeed w ->
     Os.exists_ d (fs s') = false /\
     (Os.exists_ d (fs s) = true -> Os.listdir d (fs s') = [])).
Proof.
  destruct (call_cleanup d s) as (s' & E & Q & F).
  unfold call in E.
  destruct (_cleanup w d s) as [[[]| |e] s''];
    inversion E; subst; eauto 8.
Qed.

End Cleanup.

(* ===================================================================== *)
(** ** Symbolic execution of a job                                        *)
(* ===================================================================== *)

(** The calls of [_cleanup] contribute nothing to the readings of a log. *)

Lemma silent_filter (l : list action) (H : only_cleanup l) (P : action -> bool) :
  (forall a, is_cleanup_call a = true -> P a = false) -> filter P l = [].
Proof.
  intros HP. induction H as [|a r Ha Hr IH]; simpl.
  - reflexivity.
  - now rewrite (HP a Ha).
Qed.

Lemma silent_positions (l : list action) (H : only_cleanup l) (P : action -> bool) (i : nat) :
  (forall a, is_cleanup_call a = true -> P a = false) -> positions P i l = [].
Proof.
  intros HP. revert i.
  induction H as [|a r Ha Hr IH]; intros i; simpl.
  - reflexivity.
  - now rewrite (HP a Ha).
Qed.

Lemma silent_progress (l : list action) (H : only_cleanup l) : progress_of l = [].
Proof.
  induction H as [|a r Ha Hr IH]; simpl; [reflexivity|].
  destruct a; try discriminate; assumption.
Qed.

Lemma silent_errors (l : list action) (H : only_cleanup l) : errors_of l = [].
Proof.
  induction H as [|a r Ha Hr IH]; simpl; [reflexivity|].
  destruct a; try discriminate; assumption.
Qed.

Lemma silent_finished (l : list action) (H : only_cleanup l) : finished_of l = [].
Proof.
  induction H as [|a r Ha Hr IH]; simpl; [reflexivity|].
  destruct a; try discriminate; assumption.
Qed.

Lemma silent_subprocess (l : list action) (H : only_cleanup l) : subprocess_runs l = [].
Proof.
  induction H as [|a r Ha Hr IH]; simpl; [reflexivity|].
  destruct a; try discriminate; assumption.
Qed.

Lemma silent_before (l : list action) (H : only_cleanup l) (n : Z) (prev : option action) :
  before_progress n prev l = None.
Proof.
  revert prev.
  induction H as [|a r Ha Hr IH]; intros prev; simpl;
    [reflexivity|].
  destruct a; try discriminate; apply IH.
Qed.

Lemma silent_terminals (l : list action) (H : only_cleanup l) :
  filter is_terminal l = [].
Proof. apply silent_filter; [assumption | now intros []]. Qed.

Lemma silent_signals (l : list action) (H : only_cleanup l) :
  filter is_signal l = [].
Proof. apply silent_filter; [assumption | now intros []]. Qed.

Lemma silent_model (l : list action) (H : only_cleanup l) : filter is_model_call l = [].
Proof. apply silent_filter; [assumption | now intros []]. Qed.

Lemma silent_save (l : list action) (H : only_cleanup l) : filter is_save_call l = [].
Proof. apply silent_filter; [assumption | now intros []]. Qed.

Lemma silent_writes (l : list action) (H : only_cleanup l) (p : string) :
  filter (fun a => match target a with Some q => q =? p | None => false end) l
  = [].
Proof. apply silent_filter; [assumption | now intros []]. Qed.

Lemma silent_stage_starts (l : list action) (H : only_cleanup l) (i : nat) : positions is_stage_start i l = [].
Proof. apply silent_positions; [assumption | now intros []]. Qed.

Lemma silent_guarded_starts (l : list action) (H : only_cleanup l) (i : nat) : positions is_guarded_start i l = [].
Proof. apply silent_positions; [assumption | now intros []]. Qed.

Lemma silent_in (l : list action) (H : only_cleanup l) (a : action) : In a l -> is_cleanup_call a = true.
Proof. intros Hin. now apply (proj1 (Forall_forall _ _) H). Qed.


(** The constructor: either an exception leaves it, after nothing but the
    temp-directory and ffmpeg calls of [remux], or the worker exists and
    the log holds exactly these two calls. *)
Lemma init_spec (w : World) (i o : string) (a : option Z) :
  (exists e s,
      __init__ w i o a (boot w) = (Raise e, s) /\
      handle s = NeverOpened /\
      (log s = [Call_mkdtemp] \/
       exists exe d,
         mkdtemp w 0 = inr d /\
         log s = [Call_mkdtemp;
                  Call_subprocess_run
                    (remux_cmd exe i
                       (Os.path_join d ("remux_" ++ Os.Path_name i)))])) \/
  (exists exe d F,
      mkdtemp w 0 = inr d /\
      In d F /\
      __init__ w i o a (boot w) =
        (Normal {| input_video := Os.path_join d ("remux_" ++ Os.Path_name i);
                   output_video := o; atten_lim_db := a;
                   _is_running := true; video_clip := None |},
         {| fs := F;
            log := [Call_mkdtemp;
                    Call_subprocess_run
                      (remux_cmd exe i
                         (Os.path_join d ("remux_" ++ Os.Path_name i)))];
            mkdtemp_calls := 1; close_calls := 0; handle := NeverOpened |})).
Proof.
  unfold __init__, remux, tempfile_mkdtemp, which_or_get_ffmpeg_exe,
    subprocess_run, boot, record, of_sum, bind, gets, modify, ret, raise.
  simpl.
  destruct (mkdtemp w 0) as [e|d] eqn:Em; simpl.
  { left. eauto 8. }
  destruct (Os.taken d (initial_fs w)); simpl.
  { left. eauto 8. }
  assert (Hd : In d (Os.create d (initial_fs w)))
    by (apply OsFacts.in_create; now left).
  repeat (match goal with
          | |- context [which_ffmpeg w] => destruct (which_ffmpeg w) as [p|]
          | |- context [truthy ?p] => destruct (truthy p)
          | |- context [get_ffmpeg_exe w] =>
              destruct (get_ffmpeg_exe w) as [e|x]
          | |- context [process w ?c] =>
              destruct (process w c) as [rc out err wr|e]
          | |- context [(?rc =? 0)%Z] => destruct (rc =? 0)%Z
          end; simpl);
    first [ left; do 2 eexists; split; [reflexivity|]; split; [reflexivity|];
            cbn; eauto 8; fail
          | right; do 3 eexists; split; [reflexivity|];
            split; [|reflexivity]; cbn;
            apply OsFacts.in_create_if, OsFacts.in_create; auto ].
Qed.


(** *** The executor

    [exec E] runs the job in [E : r = launch ...] to its end, splitting on
    every answer of the world in the order the worker asks for it. *)

Ltac norm_in E :=
  cbv -[Os.path_join Os.Path_name Os.create Os.create_if Os.delete Os.exists_
        Os.taken Os.listdir str truthy String.append Nat.leb Z.eqb
        resource_path _cleanup nl or_ fmt remux_cmd replace_audio_cmd
        is_FileNotFoundError stop_called raised file_written
        DEEPFILTER_AVAILABLE sys_MEIPASS abspath_dot initial_fs mkdtemp
        which_ffmpeg get_ffmpeg_exe process open_clip write_audio close_clip
        df_init df_load df_enhance df_save listdir_error remove_error
        rmdir_error stop_at] in E.

Ltac fresh_exists E :=
  match type of E with
  | context [Os.exists_ (Os.path_join ?d ?n)
               (Os.create_if ?b (Os.path_join ?d ?n) (Os.create ?d ?f))] =>
      match goal with
      | Ht : Os.taken d f = false |- _ =>
          destruct b eqn:?; unfold Os.create_if in E;
          [ rewrite (OsFacts.exists_create_same (Os.path_join d n)
                       (Os.create d f)) in E
          | rewrite (OsFacts.fresh_child d n f Ht eq_refl
                       ltac:(discriminate)) in E ]
      end
  | context [Os.exists_ (Os.path_join ?d ?n) (Os.create ?d ?f)] =>
      match goal with
      | Ht : Os.taken d f = false |- _ =>
          rewrite (OsFacts.fresh_child d n f Ht eq_refl ltac:(discriminate))
            in E
      end
  end.

Ltac step E :=
  match type of E with
  | context [truthy (?a ++ ?b)] =>
      let v := eval vm_compute in (truthy (a ++ b)) in
      change (truthy (a ++ b)) with v in E
  | context [DEEPFILTER_AVAILABLE ?w] =>
      destruct (DEEPFILTER_AVAILABLE w) eqn:?
  | context [mkdtemp ?w ?n] => destruct (mkdtemp w n) as [?e | ?d] eqn:?
  | context [Os.taken ?d ?f] => destruct (Os.taken d f) eqn:?
  | context [open_clip ?w ?p] =>
      destruct (open_clip w p) as [?e | [[ | | ]]] eqn:?
  | context [raised (write_audio ?w ?p)] =>
      destruct (raised (write_audio w p)) as [?e|] eqn:?
  | context [close_clip ?w ?n] => destruct (close_clip w n) as [?e|] eqn:?
  | context [Os.exists_ _ _] => fresh_exists E
  | context [stop_called ?w ?n] => destruct (stop_called w n) eqn:?
  | context [df_init ?w ?p] => destruct (df_init w p) as [?e | ?sr] eqn:?
  | context [df_load ?w ?p ?sr] =>
      destruct (df_load w p sr) as [?e | ?t] eqn:?
  | context [df_enhance ?w ?t ?a] =>
      destruct (df_enhance w t a) as [?e | [?t|]] eqn:?
  | context [raised (df_save ?w ?p ?t ?sr)] =>
      destruct (raised (df_save w p t sr)) as [?e|] eqn:?
  | context [get_ffmpeg_exe ?w] =>
      destruct (get_ffmpeg_exe w) as [?e | ?exe] eqn:?
  | context [process ?w ?c] =>
      destruct (process w c) as [?rc ?out ?err ?wr | ?e] eqn:?
  | context [Z.eqb ?a ?b] => destruct (Z.eqb a b) eqn:?
  | context [is_FileNotFoundError ?e] =>
      try (is_var e; destruct e); cbn [is_FileNotFoundError] in E
  | context [truthy ?d] =>
      match goal with
      | Ht : Os.taken d ?f = false, Hin : In ?x ?f |- _ =>
          rewrite (OsFacts.fresh_truthy d x f Hin Ht) in E
      end
  | context [_cleanup ?w ?d ?s] =>
      let c := fresh "c" in
      let s' := fresh "s'" in
      let l := fresh "l" in
      let Hc := fresh "Hc" in
      let Hr := fresh "Hr" in
      let lg := fresh "lg" in
      let hd := fresh "hd" in
      let Hl := fresh "Hl" in
      let Hh := fresh "Hh" in
      destruct (cleanup_spec w d s)
        as (c & s' & Hr & Hc & (l & Hl & ? & Hh & ?) & ?);
      rewrite Hr in E; clear Hr;
      destruct Hc; subst c;
      destruct s' as [?fs' lg ?mk' ?cl' hd];
      cbn [fs log handle mkdtemp_calls close_calls] in *;
      subst lg; subst hd
  end.

Ltac exec E := norm_in E; repeat (step E; norm_in E).

(** Splits a statement about [job w i o a] into the case where the
    constructor raised and the leaves of the executed launch. *)
Ltac job_cases w i o a :=
  let r := fresh "r" in
  let E := fresh "E" in
  let Ei := fresh "Ei" in
  unfold job;
  destruct (init_spec w i o a)
    as [(?e & ?s & Ei & ?Hh & ?Hl) | (?exe & ?d & ?F & ?Hm & ?HF & Ei)];
  rewrite Ei; clear Ei;
  [ | match goal with
      | |- context [launch ?w ?o ?s] =>
          remember (launch w o s) as r eqn:E;
          unfold launch in E; exec E; subst r
      end ].

(** Rewrites away the cleanup calls at the end of a log. *)
Ltac silence :=
  repeat match goal with
         | H : Forall (fun a => is_cleanup_call a = true) ?l |- _ =>
             rewrite ?(silent_progress l H), ?(silent_errors l H),
               ?(silent_finished l H), ?(silent_subprocess l H),
               ?(silent_terminals l H), ?(silent_model l H),
               ?(silent_signals l H),
               ?(silent_save l H), ?(silent_before l H),
               ?(silent_writes l H), ?(silent_stage_starts l H),
               ?(silent_guarded_starts l H) in *;
             revert H
         end; intros.

(** The constructor raised: the log is one of two short lists. *)
Ltac init_failed :=
  match goal with
  | Hl : log ?s = _ \/ _ |- _ =>
      let exe := fresh "exe" in
      let d := fresh "d" in
      let Hm := fresh "Hm" in
      destruct Hl as [Hl | (exe & d & Hm & Hl)];
      cbn [machine log ending worker];
      rewrite Hl
  end.

(** Evaluates the readings of a log whose end is a list of cleanup calls. *)
Ltac read_log_step :=
  cbn [machine log ending worker workspace handle fs
       progress_of errors_of finished_of subprocess_runs terminals filter
       signals is_signal cancelled _is_running
       is_terminal is_model_call is_save_call is_subprocess_call
       is_mkdtemp_call is_write_audiofile_call is_load_audio_call
       is_enhance_call is_cleanup_call is_stage_start is_guarded_start
       positions before_progress firstn length app
       existsb negb orb Z.eqb Pos.eqb].

Ltac read_log :=
  unfold checkpoint_follows, terminals, signals, writes_to;
  read_log_step; silence; read_log_step.

(* ===================================================================== *)
(** ** The claims                                                         *)
(* ===================================================================== *)



(** C10.  A clip that was opened is closed before the job ends: the log
    has a [close()] after the opening [VideoFileClip(...)], on every way
    out of [run], and the handle is released at the end unless [close()]
    itself raised. *)
Theorem C10_clip_released (w : World) (i o : string) (a : option Z) :
  let r := job w i o a in
  handle (machine r) = NeverOpened \/
  (exists before p after,
      log (machine r) = (before ++ Call_VideoFileClip p :: after)%list /\
      In Call_close after /\
      (handle (machine r) = Closed \/ exists e, close_clip w 0 = Some e)).
Proof.
  cbv zeta. job_cases w i o a.
  1: now left.
  all: cbn [machine log handle].
  all: first
    [ now left
    | right;
      match goal with
      | |- context [?a1 :: ?a2 :: ?a3 :: ?a4 :: Call_VideoFileClip ?p :: ?rest] =>
          exists [a1; a2; a3; a4], p, rest
      end;
      split; [reflexivity|]; split; [cbn [In]; tauto|];
      first [ now left | right; eauto ] ].
Qed.

(** Splits [H : In x log] into the entries of the log that [x] can be. *)
Ltac in_log H :=
  cbn [In] in H;
  repeat match type of H with
         | _ \/ _ =>
             destruct H as [H|H];
             [ try discriminate H;
               try (exfalso; cbn [append] in H; discriminate H) | ]
         end;
  try match type of H with
      | In _ ?l =>
          match goal with
          | Hc : Forall _ l |- _ =>
              apply (silent_in l Hc) in H; discriminate H
          end
      | False => destruct H
      end.

(** Closes a leaf whose answers of the world contradict a hypothesis about
    the same call. *)
Ltac same_call H :=
  match type of H with
  | ?x = ?v =>
      match goal with
      | Heq : ?y = _ |- _ =>
          tryif constr_eq Heq H then fail
          else (unify x y; change (y = v) in H; rewrite Heq in H)
      end
  end.



(** C8, as the code has it.  When the write of the enhanced audio raises,
    the job's only terminal event is the error "Failed to save denoised
    audio:" with the text of the exception, and the final ffmpeg is not
    run.  When the enhanced buffer is absent ([None]), the writer is not
    called, the final ffmpeg is not run, and the job's only terminal event
    is the error "Denoising produced no audio data.", unless the run ended
    at the cancellation check before.  A buffer that is present is handed
    to the writer as it is, empty or not. *)
Theorem C8_persist_failure (w : World) (i o : string) (a : option Z) :
  let r := job w i o a in
  let l := log (machine r) in
  (forall p t sr e,
      In (Call_save_audio p t sr) l ->
      raised (df_save w p t sr) = Some e ->
      errors_of l = ["Failed to save denoised audio:" ++ nl ++ str e] /\
      finished_of l = [] /\
      length (subprocess_runs l) = 1 /\
      ending r = Normal tt) /\
  (forall t att,
      In (Call_enhance t att) l ->
      df_enhance w t att = inr None ->
      filter is_save_call l = [] /\
      finished_of l = [] /\
      length (subprocess_runs l) = 1 /\
      ending r = Normal tt /\
      (cancelled r = true \/
       errors_of l = ["Denoising produced no audio data."])).
Proof.
  cbv zeta. job_cases w i o a.
  1: init_failed; (split; [intros p t sr ex H | intros t att H]; in_log H).
  all: cbn [machine log ending]; split;
    [ intros p t' sr' ex Hin He; in_log Hin;
      injection Hin as <- <- <-; same_call He; try discriminate He;
      injection He as <-;
      read_log; repeat split; reflexivity
    | intros t' att Hin He; in_log Hin; injection Hin as <- <-;
      same_call He; try discriminate He;
      read_log; repeat split; try reflexivity;
      first [ now left | now right ] ].
Qed.



(** C4, as the code has it.  The stop flag is read before the model is
    loaded, before inference, before the enhanced audio is written and
    before the final ffmpeg, and nowhere else.  Once [stop()] has been
    called on a worker, none of these four steps is started any more: each
    of their calls in the log lies before the moment of the call to
    [stop()].  The cleanup of [run]'s temp directory still takes place:
    when no removal is refused, the directory and the files directly in it
    are gone at the end of the job. *)
Theorem C4_cancellation_checks (w : World) (i o : string) (a : option Z)
        (k : nat) :
  stop_at w = Some k -> 2 <= k ->
  let r := job w i o a in
  let l := log (machine r) in
  Forall (fun n => n < k) (positions is_guarded_start 0 l) /\
  (removals_succeed w ->
   forall d, workspace r = Some d ->
             Os.exists_ d (fs (machine r)) = false /\
             Os.listdir d (fs (machine r)) = []).
Proof.
  intros Hstop Hk. cbv zeta. job_cases w i o a.
  1: init_failed; cbn; (split; [repeat constructor; lia | discriminate]).
  all: unfold stop_called in *; rewrite ?Hstop in *.
  all: repeat match goal with
       | H : Nat.leb _ _ = true |- _ => apply Nat.leb_le in H
       | H : Nat.leb _ _ = false |- _ => apply Nat.leb_gt in H
       end.
  all: split; [ read_log; repeat constructor; lia | ].
  all: cbn [workspace machine fs]; intros RS d' Hw;
    first [ discriminate Hw | injection Hw as <- ].
  all: match goal with
       | Hc : removals_succeed _ -> _ |- _ => destruct (Hc RS) as [E1 E2]
       end.
  all: split; [exact E1 | apply E2].
  all: apply OsFacts.exists_spec;
    repeat first [ apply OsFacts.in_create_if
                 | apply OsFacts.in_create;
                   first [ left; reflexivity | right ] ].
Qed.

(* ===================================================================== *)
(** ** The claims on particular jobs                                      *)
(* ===================================================================== *)

Module OnWorlds.
Import Worlds.


(** C2 on a job that succeeds: [mkdtemp] is called twice, once by [remux]
    in the constructor and once by [run]; at the end the directory of
    [run] is gone, but the directory of [remux] and the sanitized file in
    it still exist. *)
Theorem C2_sanitizer_workspace_is_left_behind :
  finished_of (log (machine (job fine input output None)))
    = [(output, success_message output)] /\
  length (filter is_mkdtemp_call (log (machine (job fine input output None))))
    = 2 /\
  Os.exists_ "/tmp/tmpe5f6g7h8" (fs (machine (job fine input output None)))
    = false /\
  Os.exists_ "/tmp/tmpa1b2c3d4" (fs (machine (job fine input output None)))
    = true /\
  Os.exists_ "/tmp/tmpa1b2c3d4/remux_in.mp4"
             (fs (machine (job fine input output None)))
    = true.
Proof. vm_compute. repeat split. Qed.

(** C3 on a container that ffmpeg rejects: the [CalledProcessError] of the
    sanitizing call leaves the constructor, no worker exists, [run] never
    starts, nothing is delivered on [error], and the exception carries
    neither the stdout nor the stderr of ffmpeg. *)
Theorem C3_sanitizer_failure_leaves_the_constructor :
  ending (job broken_container input output None)
    = Raise (CalledProcessError 1
               (remux_cmd "/usr/bin/ffmpeg" input
                          "/tmp/tmpa1b2c3d4/remux_in.mp4")
               None None) /\
  worker (job broken_container input output None) = None /\
  log (machine (job broken_container input output None))
    = [Call_mkdtemp;
       Call_subprocess_run
         (remux_cmd "/usr/bin/ffmpeg" input "/tmp/tmpa1b2c3d4/remux_in.mp4")] /\
  errors_of (log (machine (job broken_container input output None))) = [].
Proof. vm_compute. repeat split. Qed.

(** C4 does not hold as stated: with [stop()] called as soon as the worker
    exists, before [run] has done anything, the clip is still opened and
    the audio still extracted; the flag is first read after that. *)
Lemma C4_extraction_starts_after_stop :
  stop_at stopped_at_once = Some 2 /\
  nth_error (log (machine (job stopped_at_once input output None))) 4
    = Some (Call_VideoFileClip "/tmp/tmpa1b2c3d4/remux_in.mp4") /\
  nth_error (log (machine (job stopped_at_once input output None))) 5
    = Some (Call_write_audiofile "/tmp/tmpe5f6g7h8/temp_original_audio.wav"
                                 "pcm_s16le") /\
  positions is_stage_start 0
            (log (machine (job stopped_at_once input output None)))
    = [1; 4] /\
  ~ Forall (fun n => n < 2)
           (positions is_stage_start 0
                      (log (machine (job stopped_at_once input output None)))).
Proof.
  vm_compute. repeat split.
  intros H. inversion H as [|x r H1 H2]; subst.
  inversion H2 as [|y r' H3 H4]; subst.
  apply Nat.lt_nge in H3. apply H3. repeat constructor.
Qed.


(** C8 does not hold as stated: an enhanced buffer without samples is
    written like any other, and when the writer accepts it the job goes on
    to the final ffmpeg and completes. *)
Lemma C8_empty_buffer_is_persisted :
  In (Call_save_audio "/tmp/tmpe5f6g7h8/temp_enhanced_audio.wav" [] 48000)
     (log (machine (job model_returns_empty input output None))) /\
  errors_of (log (machine (job model_returns_empty input output None))) = [] /\
  length (subprocess_runs
            (log (machine (job model_returns_empty input output None)))) = 2 /\
  finished_of (log (machine (job model_returns_empty input output None)))
    = [(output, success_message output)].
Proof. vm_compute. repeat split. tauto. Qed.

End OnWorlds.

(** Instances of the theorems above on particular jobs. *)
Module Instances.
Import Worlds.

Lemma fine_removals (stop : option nat) (proc : list string -> proc_outcome)
      (clip : exn + VideoFileClip_obj) (enh : Tensor -> exn + option Tensor)
      (save : write_result) :
  removals_succeed (world proc clip enh save stop).
Proof. repeat split. Defined.

Lemma C4_cancellation_checks_witness :
  Forall (fun n => n < 8)
         (positions is_guarded_start 0
            (log (machine (job stopped_after_extraction input output None)))) /\
  Os.exists_ "/tmp/tmpe5f6g7h8"
             (fs (machine (job stopped_after_extraction input output None)))
    = false /\
  Os.listdir "/tmp/tmpe5f6g7h8"
             (fs (machine (job stopped_after_extraction input output None)))
    = [].
Proof.
  destruct (C4_cancellation_checks stopped_after_extraction input output None
              8 eq_refl ltac:(repeat constructor)) as [H1 H2].
  split; [exact H1|].
  apply H2; [apply fine_removals | reflexivity].
Defined.



Lemma C8_persist_failure_witness :
  (errors_of (log (machine (job disk_full input output None)))
     = ["Failed to save denoised audio:" ++ nl ++ "No space left on device"] /\
   finished_of (log (machine (job disk_full input output None))) = [] /\
   length (subprocess_runs (log (machine (job disk_full input output None))))
     = 1 /\
   ending (job disk_full input output None) = Normal tt) /\
  (filter is_save_call (log (machine (job model_returns_none input output None)))
     = [] /\
   finished_of (log (machine (job model_returns_none input output None)))
     = [] /\
   length (subprocess_runs
             (log (machine (job model_returns_none input output None)))) = 1 /\
   ending (job model_returns_none input output None) = Normal tt /\
   (cancelled (job model_returns_none input output None) = true \/
    errors_of (log (machine (job model_returns_none input output None)))
      = ["Denoising produced no audio data."])).
Proof.
  split.
  - apply (proj1 (C8_persist_failure disk_full input output None)
             "/tmp/tmpe5f6g7h8/temp_enhanced_audio.wav" [12; -7; 3]%Z
             48000%Z (OSError "No space left on device"));
      [vm_compute; tauto | reflexivity].
  - apply (proj2 (C8_persist_failure model_returns_none input output None)
             [12; -7; 3]%Z None); [vm_compute; tauto | reflexivity].
Defined.



End Instances.

(* ===================================================================== *)
(** ** More about [remux]                                                *)
(* ===================================================================== *)


Module PathFacts.
Import Os.

Lemma split_slash_no_slash (s : string) :
  Forall (fun c => has_slash c = false) (split_slash s).
Proof.
  induction s as [|c r IH]; simpl.
  - repeat constructor.
  - destruct (Ascii.eqb c slash) eqn:E.
    + constructor; [reflexivity | exact IH].
    + destruct (split_slash r) as [|h t].
      * repeat constructor. simpl. now rewrite E.
      * inversion IH as [|x y Hh Ht]; subst.
        constructor; [simpl; now rewrite E, Hh | exact Ht].
Qed.

Lemma last_Forall (P : string -> Prop) (l : list string) (d : string) :
  Forall P l -> P d -> P (last l d).
Proof.
  induction 1 as [|x r Hx Hr IH]; intros Hd; simpl; [assumption|].
  destruct r; [assumption | now apply IH].
Qed.

(** A file name has no slash. *)
Lemma Path_name_no_slash (s : string) : has_slash (Path_name s) = false.
Proof.
  unfold Path_name. apply last_Forall; [|reflexivity].
  apply Forall_forall. intros x Hx. apply filter_In in Hx.
  destruct Hx as (Hx & _).
  now apply (proj1 (Forall_forall _ _) (split_slash_no_slash s)).
Qed.

(** A name without slash, joined to a directory, is an entry of it. *)
Lemma entry_of_join (d n : string) :
  n <> "" -> has_slash n = false -> entry_of d (path_join d n) = Some n.
Proof.
  intros Hn Hs. unfold entry_of.
  rewrite (OsFacts.path_join_prefix d n (OsFacts.has_slash_starts n Hs)).
  rewrite OsFacts.strip_prefix_append, Hs.
  apply String.eqb_neq in Hn. now rewrite Hn.
Qed.

End PathFacts.

Section Remux.
Variable w : World.

(** X1.  When [remux] returns, it returns the path of a file named
    [remux_] followed by the file name of the source, directly inside a
    directory that [mkdtemp] has just made and that now exists; it has
    made exactly two calls, [mkdtemp] and one ffmpeg process, whose
    executable is the [ffmpeg] on the PATH when there is one and the one
    of imageio_ffmpeg otherwise, whose arguments are those of the source
    ([-map 0:v -map 0:a? -c copy -movflags +faststart]), and which exited
    with status 0. *)
Theorem remux_returns (src : string) (s s' : Sys) (out : string) :
  remux w src s = (Normal out, s') ->
  exists d exe,
    mkdtemp w (mkdtemp_calls s) = inr d /\
    Os.taken d (fs s) = false /\
    (which_ffmpeg w = Some exe /\ truthy exe = true \/
     (which_ffmpeg w = None \/ which_ffmpeg w = Some "") /\
     get_ffmpeg_exe w = inr exe) /\
    out = Os.path_join d ("remux_" ++ Os.Path_name src) /\
    Os.entry_of d out = Some ("remux_" ++ Os.Path_name src) /\
    log s' =
      (log s ++
       [Call_mkdtemp;
        Call_subprocess_run
          [ exe; "-y"; "-ignore_editlist"; "1"; "-i"; src;
            "-map"; "0:v"; "-map"; "0:a?"; "-c"; "copy";
            "-movflags"; "+faststart"; out ]])%list /\
    (exists so se wr,
        process w [ exe; "-y"; "-ignore_editlist"; "1"; "-i"; src;
                    "-map"; "0:v"; "-map"; "0:a?"; "-c"; "copy";
                    "-movflags"; "+faststart"; out ]
        = Exited 0 so se wr) /\
    In d (fs s').
Proof.
  unfold remux, tempfile_mkdtemp, which_or_get_ffmpeg_exe, subprocess_run,
    record, of_sum, bind, gets, modify, ret, raise.
  simpl.
  destruct (mkdtemp w (mkdtemp_calls s)) as [e|d] eqn:Em; simpl;
    [discriminate|].
  destruct (Os.taken d (fs s)) eqn:Et; simpl; [discriminate|].
  assert (Hentry :
    Os.entry_of d (Os.path_join d ("remux_" ++ Os.Path_name src))
    = Some ("remux_" ++ Os.Path_name src)).
  { apply PathFacts.entry_of_join; [discriminate|].
    simpl. apply PathFacts.Path_name_no_slash. }
  destruct (which_ffmpeg w) as [p|] eqn:Ew;
    [destruct (truthy p) eqn:Ep|]; simpl.
  2: assert (p = "") as -> by (destruct p; [reflexivity | discriminate]).
  2,3: destruct (get_ffmpeg_exe w) as [e|x] eqn:Eg; simpl; [discriminate|].
  all: match goal with
       | |- context [process w ?c] =>
           destruct (process w c) as [rc so se wr|e] eqn:Ex; simpl;
           [|discriminate]
       end.
  all: destruct (Z.eqb_spec rc 0) as [->|]; simpl; [|discriminate].
  all: intros [= <- <-].
  all: do 2 eexists.
  all: split; [reflexivity|].
  all: split; [assumption|].
  all: split; [first [left; split; [reflexivity | assumption]
                     | right; split; [auto | reflexivity] ]|].
  all: split; [reflexivity|].
  all: split; [exact Hentry|].
  all: split; [simpl; rewrite <- app_assoc; reflexivity|].
  all: split; [do 3 eexists; exact Ex|].
  all: simpl; apply OsFacts.in_create_if, OsFacts.in_create; now left.
Qed.

End Remux.

Section RemuxFails.
Variable w : World.

(** X2.  When [remux] raises, either [mkdtemp] failed, and then nothing was
    created and no process was run; or the directory was made and is left
    on the disk, and the exception is that of imageio_ffmpeg's lookup, that
    of a process that could not be started, or, for an ffmpeg that exits
    with a status other than 0, a [CalledProcessError] with this status and
    the command, and with neither stdout nor stderr: the output is not
    captured. *)
Theorem remux_raises (src : string) (s s' : Sys) (e : exn) :
  remux w src s = (Raise e, s') ->
  (fs s' = fs s /\ log s' = (log s ++ [Call_mkdtemp])%list /\
   (mkdtemp w (mkdtemp_calls s) = inl e \/
    exists d, mkdtemp w (mkdtemp_calls s) = inr d /\
              Os.taken d (fs s) = true /\
              e = OSError "No usable temporary directory name found")) \/
  (exists d,
      mkdtemp w (mkdtemp_calls s) = inr d /\
      Os.exists_ d (fs s') = true /\
      (get_ffmpeg_exe w = inl e /\ log s' = (log s ++ [Call_mkdtemp])%list \/
       exists exe,
         let cmd :=
           remux_cmd exe src (Os.path_join d ("remux_" ++ Os.Path_name src)) in
         log s' = (log s ++ [Call_mkdtemp; Call_subprocess_run cmd])%list /\
         (process w cmd = SpawnFailed e \/
          exists rc so se wr,
            process w cmd = Exited rc so se wr /\ rc <> 0%Z /\
            e = CalledProcessError rc cmd None None))).
Proof.
  unfold remux, tempfile_mkdtemp, which_or_get_ffmpeg_exe, subprocess_run,
    record, of_sum, bind, gets, modify, ret, raise.
  simpl.
  destruct (mkdtemp w (mkdtemp_calls s)) as [e0|d] eqn:Em; simpl.
  { intros [= <- <-]. left. simpl. auto. }
  destruct (Os.taken d (fs s)) eqn:Et; simpl.
  { intros [= <- <-]. left. simpl. repeat split; auto. right. eauto. }
  assert (Hd : forall b p,
             Os.exists_ d (Os.create_if b p (Os.create d (fs s))) = true).
  { intros b p. apply OsFacts.exists_spec, OsFacts.in_create_if,
      OsFacts.in_create. now left. }
  assert (Hd0 : Os.exists_ d (Os.create d (fs s)) = true)
    by apply (Hd false "").
  destruct (which_ffmpeg w) as [p|] eqn:Ew;
    [destruct (truthy p) eqn:Ep|]; simpl.
  2,3: destruct (get_ffmpeg_exe w) as [e1|x] eqn:Eg; simpl;
    [ intros [= <- <-]; right; exists d; simpl; auto | ].
  all: match goal with
       | |- context [process w ?c] =>
           destruct (process w c) as [rc so se wr|e1] eqn:Ex; simpl
       end.
  all: try destruct (Z.eqb_spec rc 0) as [->|Hrc]; simpl;
    try discriminate.
  all: intros [= <- <-]; right; exists d; simpl;
    (split; [reflexivity|]); (split; [auto|]); right; eexists; cbv zeta;
    (split; [rewrite <- app_assoc; reflexivity|]).
  all: first [ left; exact Ex
             | right; do 4 eexists; split;
               [exact Ex | split; [exact Hrc | reflexivity]] ].
Qed.

End RemuxFails.


(* ===================================================================== *)
(** ** More about [_cleanup]                                             *)
(* ===================================================================== *)


Module CleanupFacts.

Lemma listdir_names (d n : string) (f : Os.FS) :
  In n (Os.listdir d f) -> exists p, In p f /\ Os.entry_of d p = Some n.
Proof.
  induction f as [|q f IH]; simpl; [tauto|].
  destruct (Os.entry_of d q) as [m|] eqn:E.
  - intros [<-|H]; [exists q; auto|].
    destruct (IH H) as (p & Hp & Ep). exists p. auto.
  - intros H. destruct (IH H) as (p & Hp & Ep). exists p. auto.
Qed.

Lemma listdir_no_slash (d n : string) (f : Os.FS) :
  In n (Os.listdir d f) -> Os.starts_with_slash n = false.
Proof.
  intros H. destruct (listdir_names d n f H) as (p & _ & E).
  destruct (OsFacts.entry_of_sound d p n E) as (_ & _ & Hs).
  now apply OsFacts.has_slash_starts.
Qed.

Lemma under_self (d : string) : Os.at_or_under d d = true.
Proof. unfold Os.at_or_under. now rewrite String.eqb_refl. Qed.

Section Loop.
Variable w : World.
Variable d : string.

(** One turn of the removal loop. *)
Lemma remove_all_cons (n : string) (names : list string) (s : Sys) :
  remove_all w d (n :: names) s =
  let p := Os.path_join d n in
  match remove_error w p with
  | Some e =>
      if is_OSError e then remove_all w d names (with_log (Call_remove p) s)
      else (Raise e, with_log (Call_remove p) s)
  | None =>
      remove_all w d names (with_fs (Os.delete p) (with_log (Call_remove p) s))
  end.
Proof.
  unfold remove_all. simpl.
  unfold bind at 1, try_except at 1, os_remove, record, of_error.
  unfold bind at 1, bind at 1, modify at 1.
  destruct (remove_error w (Os.path_join d n)) as [e|]; simpl;
    [destruct (is_OSError e)|]; reflexivity.
Qed.

(** The removal loop never executes [return]. *)
Lemma remove_all_ends (names : list string) (s : Sys) :
  fst (remove_all w d names s) = Normal tt \/
  exists e, fst (remove_all w d names s) = Raise e.
Proof.
  revert s. induction names as [|n names IH]; intros s; [now left|].
  rewrite remove_all_cons. cbv zeta.
  destruct (remove_error w (Os.path_join d n)) as [e|];
    [destruct (is_OSError e)|]; simpl; eauto.
Qed.

(** The loop removes nothing outside the directory. *)
Lemma remove_all_keeps (names : list string) (s : Sys) (p : string) :
  (forall n, In n names -> Os.starts_with_slash n = false) ->
  In p (fs s) -> Os.at_or_under d p = false ->
  In p (fs (snd (remove_all w d names s))).
Proof.
  revert s. induction names as [|n names IH]; intros s Hn Hp Hu;
    [assumption|].
  assert (Hn' : forall m, In m names -> Os.starts_with_slash m = false)
    by (intros m Hm; apply Hn; now right).
  rewrite remove_all_cons. cbv zeta.
  destruct (remove_error w (Os.path_join d n)) as [e|];
    [destruct (is_OSError e)|]; simpl; auto.
  apply IH; auto. simpl. apply OsFacts.in_delete. split; [|assumption].
  intros ->. rewrite OsFacts.under_join in Hu; [discriminate|].
  apply Hn. now left.
Qed.

(** When only [OSError]s are raised, the loop goes through all names and
    every file whose removal is not refused is gone. *)
Lemma remove_all_best_effort (names : list string) (s : Sys) :
  (forall p e, remove_error w p = Some e -> is_OSError e = true) ->
  fst (remove_all w d names s) = Normal tt /\
  forall n, In n names -> remove_error w (Os.path_join d n) = None ->
            ~ In (Os.path_join d n) (fs (snd (remove_all w d names s))).
Proof.
  intros HO. revert s.
  induction names as [|n names IH]; intros s.
  - split; [reflexivity | intros n []].
  - rewrite remove_all_cons. cbv zeta.
    destruct (remove_error w (Os.path_join d n)) as [e|] eqn:E.
    + rewrite (HO _ _ E).
      destruct (IH (with_log (Call_remove (Os.path_join d n)) s)) as (N & R).
      split; [exact N|].
      intros m [<-|Hm] Hr; [congruence | now apply R].
    + set (s1 := with_fs (Os.delete (Os.path_join d n))
                   (with_log (Call_remove (Os.path_join d n)) s)).
      destruct (IH s1) as (N & R).
      split; [exact N|].
      intros m [<-|Hm] Hr; [|now apply R].
      intros Hin.
      destruct (remove_all_quiet w d names s1) as (l & _ & _ & _ & Sub).
      apply Sub in Hin. simpl in Hin. apply OsFacts.in_delete in Hin. tauto.
Qed.

End Loop.
End CleanupFacts.

Section CleanupTheorems.
Variable w : World.

Lemma rmdir_step (d : string) (s : Sys) :
  try_except (os_rmdir w d) is_OSError (fun _ => ret tt) s =
  let s1 := with_log (Call_rmdir d) s in
  match rmdir_error w d with
  | Some e => if is_OSError e then (Normal tt, s1) else (Raise e, s1)
  | None =>
      match Os.listdir d (fs s) with
      | [] => (Normal tt, with_fs (Os.delete d) s1)
      | _ :: _ => (Normal tt, s1)
      end
  end.
Proof.
  unfold try_except, os_rmdir, record, of_error, bind, modify, gets, ret, raise.
  simpl.
  destruct (rmdir_error w d) as [e|]; simpl;
    [destruct (is_OSError e); reflexivity|].
  destruct (Os.listdir d (fs s)); reflexivity.
Qed.

(** X3.  [_cleanup] always returns normally, whatever the listing and the
    removals raise; it emits no signal, leaves the media handle alone and
    creates no path. *)
Theorem cleanup_returns_and_only_removes (d : string) (s : Sys) :
  fst (_cleanup w d s) = Normal tt /\
  handle (snd (_cleanup w d s)) = handle s /\
  signals (log (snd (_cleanup w d s))) = signals (log s) /\
  incl (fs (snd (_cleanup w d s))) (fs s).
Proof.
  assert (Q : quiet s (snd (_cleanup w d s))).
  { destruct (cleanup_spec w d s) as (c & s' & E & _ & Q & _).
    now rewrite E. }
  split.
  - rewrite cleanup_unfold. cbv zeta.
    destruct (Os.exists_ d (fs (with_log Call_sleep s))); [|reflexivity].
    destruct (listdir_error w d); [reflexivity|].
    match goal with
    | |- context [remove_all w d ?n ?s1] =>
        destruct (CleanupFacts.remove_all_ends w d n s1) as [E | (e & E)];
        destruct (remove_all w d n s1) as [c s2]; simpl in E; subst c
    end; [|reflexivity].
    rewrite rmdir_step. cbv zeta.
    destruct (rmdir_error w d) as [e|]; [destruct (is_OSError e)|];
      try reflexivity.
    destruct (Os.listdir d (fs s2)); reflexivity.
  - destruct Q as (l & L & F & H & S).
    split; [exact H|]. split; [|exact S].
    rewrite L. unfold signals. rewrite filter_app.
    rewrite (silent_signals l F). apply app_nil_r.
Qed.

(** [_cleanup] keeps every path that is neither the directory nor below
    it. *)
Lemma cleanup_keeps (d : string) (s : Sys) (p : string) :
  In p (fs s) -> Os.at_or_under d p = false ->
  In p (fs (snd (_cleanup w d s))).
Proof.
  intros Hp Hu. rewrite cleanup_unfold. cbv zeta.
  destruct (Os.exists_ d (fs (with_log Call_sleep s))); [|exact Hp].
  destruct (listdir_error w d); [exact Hp|].
  match goal with
  | |- context [remove_all w d ?n ?s1] =>
      pose proof (CleanupFacts.remove_all_keeps w d n s1 p) as K;
      destruct (remove_all w d n s1) as [c s2]
  end.
  simpl in K.
  assert (K2 : In p (fs s2)).
  { apply K; auto. intros n Hn.
    eapply CleanupFacts.listdir_no_slash; eauto. }
  destruct c as [u| |e]; simpl; auto.
  rewrite rmdir_step. cbv zeta.
  assert (Hd : p <> d).
  { intros ->. rewrite CleanupFacts.under_self in Hu. discriminate. }
  destruct (rmdir_error w d) as [e|]; [destruct (is_OSError e)|]; simpl; auto.
  destruct (Os.listdir d (fs s2)); simpl; auto.
  apply OsFacts.in_delete. auto.
Qed.

(** X4.  [_cleanup] removes nothing but the directory it is given and what
    lies in it: a path that exists and is neither the directory nor below
    it exists afterwards. *)
Theorem cleanup_is_confined (d : string) (s : Sys) (p : string) :
  Os.exists_ p (fs s) = true -> Os.at_or_under d p = false ->
  Os.exists_ p (fs (snd (_cleanup w d s))) = true.
Proof.
  intros Hp Hu. apply OsFacts.exists_spec. apply cleanup_keeps; [|exact Hu].
  now apply OsFacts.exists_spec.
Qed.

(** X5.  The removal is best effort.  When the directory exists, can be
    listed, and removals fail with [OSError]s only, every file of the
    directory whose removal is not refused is gone afterwards, whether or
    not the removal of another file was refused. *)
Theorem cleanup_is_best_effort (d : string) (s : Sys) (n : string) :
  Os.exists_ d (fs s) = true ->
  listdir_error w d = None ->
  (forall p e, remove_error w p = Some e -> is_OSError e = true) ->
  In n (Os.listdir d (fs s)) ->
  remove_error w (Os.path_join d n) = None ->
  Os.exists_ (Os.path_join d n) (fs (snd (_cleanup w d s))) = false.
Proof.
  intros Hex Hl HO Hn Hr. apply OsFacts.exists_false.
  rewrite cleanup_unfold. cbv zeta.
  change (fs (with_log Call_sleep s)) with (fs s). rewrite Hex, Hl.
  match goal with
  | |- context [remove_all w d ?ns ?s1] =>
      destruct (CleanupFacts.remove_all_best_effort w d ns s1 HO) as (N & R);
      destruct (remove_all w d ns s1) as [c s2]
  end.
  simpl in N, R. subst c.
  specialize (R n Hn Hr).
  rewrite rmdir_step. cbv zeta.
  destruct (rmdir_error w d) as [e|]; [destruct (is_OSError e)|]; simpl; auto.
  destruct (Os.listdir d (fs s2)); simpl; auto.
  intros Hin. apply OsFacts.in_delete in Hin. tauto.
Qed.

End CleanupTheorems.

(* ===================================================================== *)
(** ** What a job leaves on the disk                                     *)
(* ===================================================================== *)


(** [cleanup_spec], with what [_cleanup] keeps. *)
Lemma cleanup_spec_keep (w : World) (d : string) (s : Sys) :
  exists c s',
    _cleanup w d s = (c, s') /\
    (c = Normal tt \/ c = Return_) /\
    quiet s s' /\
    (removals_succeed w ->
     Os.exists_ d (fs s') = false /\
     (Os.exists_ d (fs s) = true -> Os.listdir d (fs s') = [])) /\
    (forall p, In p (fs s) -> Os.at_or_under d p = false -> In p (fs s')).
Proof.
  destruct (cleanup_spec w d s) as (c & s' & E & Hc & Q & F).
  exists c, s'. repeat (split; [assumption|]).
  intros p Hp Hu. pose proof (cleanup_keeps w d s p Hp Hu) as K.
  now rewrite E in K.
Qed.

(** The constructor deletes nothing. *)
Lemma init_keeps (w : World) (i o : string) (a : option Z) :
  incl (initial_fs w) (fs (snd (__init__ w i o a (boot w)))).
Proof.
  unfold __init__, remux, tempfile_mkdtemp, which_or_get_ffmpeg_exe,
    subprocess_run, boot, record, of_sum, bind, gets, modify, ret, raise.
  simpl.
  destruct (mkdtemp w 0) as [e|d]; simpl; [apply incl_refl|].
  destruct (Os.taken d (initial_fs w)); simpl; [apply incl_refl|].
  repeat (match goal with
          | |- context [which_ffmpeg w] => destruct (which_ffmpeg w) as [p|]
          | |- context [truthy ?p] => destruct (truthy p)
          | |- context [get_ffmpeg_exe w] =>
              destruct (get_ffmpeg_exe w) as [e|x]
          | |- context [process w ?c] =>
              destruct (process w c) as [rc out err wr|e]
          | |- context [(?rc =? 0)%Z] => destruct (rc =? 0)%Z
          end; simpl).
  all: intros q Hq;
    repeat first [ apply OsFacts.in_create_if
                 | apply OsFacts.in_create; right ];
    exact Hq.
Qed.

Ltac step_keep E :=
  match type of E with
  | context [truthy (?a ++ ?b)] =>
      let v := eval vm_compute in (truthy (a ++ b)) in
      change (truthy (a ++ b)) with v in E
  | context [DEEPFILTER_AVAILABLE ?w] =>
      destruct (DEEPFILTER_AVAILABLE w) eqn:?
  | context [mkdtemp ?w ?n] => destruct (mkdtemp w n) as [?e | ?d] eqn:?
  | context [Os.taken ?d ?f] => destruct (Os.taken d f) eqn:?
  | context [open_clip ?w ?p] =>
      destruct (open_clip w p) as [?e | [[ | | ]]] eqn:?
  | context [raised (write_audio ?w ?p)] =>
      destruct (raised (write_audio w p)) as [?e|] eqn:?
  | context [close_clip ?w ?n] => destruct (close_clip w n) as [?e|] eqn:?
  | context [Os.exists_ _ _] => fresh_exists E
  | context [stop_called ?w ?n] => destruct (stop_called w n) eqn:?
  | context [df_init ?w ?p] => destruct (df_init w p) as [?e | ?sr] eqn:?
  | context [df_load ?w ?p ?sr] =>
      destruct (df_load w p sr) as [?e | ?t] eqn:?
  | context [df_enhance ?w ?t ?a] =>
      destruct (df_enhance w t a) as [?e | [?t|]] eqn:?
  | context [raised (df_save ?w ?p ?t ?sr)] =>
      destruct (raised (df_save w p t sr)) as [?e|] eqn:?
  | context [get_ffmpeg_exe ?w] =>
      destruct (get_ffmpeg_exe w) as [?e | ?exe] eqn:?
  | context [process ?w ?c] =>
      destruct (process w c) as [?rc ?out ?err ?wr | ?e] eqn:?
  | context [Z.eqb ?a ?b] => destruct (Z.eqb a b) eqn:?
  | context [is_FileNotFoundError ?e] =>
      try (is_var e; destruct e); cbn [is_FileNotFoundError] in E
  | context [truthy ?d] =>
      match goal with
      | Ht : Os.taken d ?f = false, Hin : In ?x ?f |- _ =>
          rewrite (OsFacts.fresh_truthy d x f Hin Ht) in E
      end
  | context [_cleanup ?w ?d ?s] =>
      let c := fresh "c" in
      let s' := fresh "s'" in
      let l := fresh "l" in
      let Hc := fresh "Hc" in
      let Hr := fresh "Hr" in
      let lg := fresh "lg" in
      let hd := fresh "hd" in
      let Hl := fresh "Hl" in
      let Hh := fresh "Hh" in
      destruct (cleanup_spec_keep w d s)
        as (c & s' & Hr & Hc & (l & Hl & ? & Hh & ?) & ? & ?);
      rewrite Hr in E; clear Hr;
      destruct Hc; subst c;
      destruct s' as [?fs' lg ?mk' ?cl' hd];
      cbn [fs log handle mkdtemp_calls close_calls] in *;
      subst lg; subst hd
  end.

Ltac exec_keep E := norm_in E; repeat (step_keep E; norm_in E).

Ltac job_cases_keep w i o a :=
  let r := fresh "r" in
  let E := fresh "E" in
  let Ei := fresh "Ei" in
  let Hk := fresh "Hk" in
  unfold job;
  pose proof (init_keeps w i o a) as Hk;
  destruct (init_spec w i o a)
    as [(?e & ?s & Ei & ?Hh & ?Hl) | (?exe & ?d & ?F & ?Hm & ?HF & Ei)];
  rewrite Ei in Hk |- *; clear Ei; cbn [snd fs] in Hk;
  [ | match goal with
      | |- context [launch ?w ?o ?s] =>
          remember (launch w o s) as r eqn:E;
          unfold launch in E; exec_keep E; subst r
      end ].

(** A path put on the disk before [_cleanup] is there. *)
Ltac on_disk :=
  repeat first [ apply OsFacts.in_create_if
               | apply OsFacts.in_create;
                 first [ left; reflexivity | right ] ];
  try assumption.

Section Disk.
Variables (w : World) (i o : string) (a : option Z).

(** What a job leaves on the disk. *)
Lemma job_disk :
  let r := job w i o a in
  (worker r = None \/
   exists d, mkdtemp w 0 = inr d /\ Os.exists_ d (fs (machine r)) = true) /\
  (removals_succeed w ->
   forall d, workspace r = Some d ->
             Os.exists_ d (fs (machine r)) = false /\
             Os.listdir d (fs (machine r)) = []) /\
  incl (initial_fs w) (fs (machine r)).
Proof.
  cbv zeta. job_cases_keep w i o a.
  1: split; [now left | split; [discriminate | exact Hk]].
  all: cbn [workspace machine fs worker].
  all: split;
    [ right; exists d; split; [assumption|]; apply OsFacts.exists_spec
    | split;
      [ intros RS d' Hw; first [ discriminate Hw | injection Hw as <- ]
      | intros p Hp; apply Hk in Hp ] ].
  all: try assumption.
  all: try match goal with
       | K : forall p, In p ?before -> Os.at_or_under ?d0 p = false -> In p ?f
         |- In ?x ?f =>
           apply K; [on_disk | eapply OsFacts.taken_false; eauto]
       end.
  all: match goal with
       | Hc : removals_succeed _ -> _ |- _ => destruct (Hc RS) as [E1 E2]
       end.
  all: split; [exact E1 | apply E2; apply OsFacts.exists_spec; on_disk].
Qed.

End Disk.

Section Disk2.
Variables (w : World) (i o : string) (a : option Z).

(** X6.  The temp directory that [remux] makes for the constructor is
    never removed: whenever a worker was constructed, the first directory
    that [mkdtemp] handed out still exists at the end of the job, however
    the job ended. *)
Theorem constructor_directory_is_left_behind :
  worker (job w i o a) <> None ->
  exists d, mkdtemp w 0 = inr d /\
            Os.exists_ d (fs (machine (job w i o a))) = true.
Proof.
  intros H. destruct (proj1 (job_disk w i o a)) as [N|E]; [contradiction|].
  exact E.
Qed.

(** X7.  The temp directory of [run] is gone after the job, with the files
    directly in it, on every way out of [run], when no removal is
    refused. *)
Theorem run_directory_is_removed (d : string) :
  removals_succeed w -> workspace (job w i o a) = Some d ->
  Os.exists_ d (fs (machine (job w i o a))) = false /\
  Os.listdir d (fs (machine (job w i o a))) = [].
Proof. intros RS. exact (proj1 (proj2 (job_disk w i o a)) RS d). Qed.

(** X8.  A job deletes nothing that was there before it: every path that
    existed when the job began, the input video among them, exists when
    it ends. *)
Theorem job_keeps_existing_files (p : string) :
  Os.exists_ p (initial_fs w) = true ->
  Os.exists_ p (fs (machine (job w i o a))) = true.
Proof.
  intros H. apply OsFacts.exists_spec.
  apply (proj2 (proj2 (job_disk w i o a))).
  now apply OsFacts.exists_spec.
Qed.

End Disk2.

(* ===================================================================== *)
(** ** More about [run]                                                  *)
(* ===================================================================== *)


(** X9.  The three ways the extraction of the audio fails.  When
    [VideoFileClip] raises, the job's only terminal event is the error
    "Failed to open input video:" with the text of the exception, and no
    handle was opened.  When the clip's audio lacks [write_audiofile], it
    is the error "Internal error during audio processing (MoviePy).".
    When [write_audiofile] raises, it is the error "Failed to extract
    audio:" with the text of the exception.  In all three cases [run]
    returns normally, progress stays at 5 and the model is never
    called. *)
Theorem extraction_failures (w : World) (i o : string) (a : option Z) :
  let r := job w i o a in
  let l := log (machine r) in
  (forall p e,
      In (Call_VideoFileClip p) l -> open_clip w p = inl e ->
      ending r = Normal tt /\
      errors_of l = ["Failed to open input video:" ++ nl ++ str e] /\
      finished_of l = [] /\ progress_of l = [5%Z] /\
      handle (machine r) = NeverOpened /\
      filter is_model_call l = []) /\
  (forall p c,
      In (Call_VideoFileClip p) l -> open_clip w p = inr c ->
      audio c = AudioWithoutWriter ->
      ending r = Normal tt /\
      errors_of l = ["Internal error during audio processing (MoviePy)."] /\
      finished_of l = [] /\ progress_of l = [5%Z] /\
      filter is_model_call l = []) /\
  (forall p c e,
      In (Call_write_audiofile p c) l ->
      raised (write_audio w p) = Some e ->
      ending r = Normal tt /\
      errors_of l = ["Failed to extract audio:" ++ nl ++ str e] /\
      finished_of l = [] /\ progress_of l = [5%Z] /\
      filter is_model_call l = []).
Proof.
  cbv zeta. job_cases w i o a.
  1: init_failed;
     (split; [intros p ex H | split; [intros p c H | intros p c ex H]];
      in_log H).
  all: cbn [machine log ending handle];
    (split;
     [ intros p ex Hin Hopen; in_log Hin; injection Hin as <-;
       same_call Hopen; try discriminate Hopen;
       injection Hopen as <-;
       read_log; repeat split; reflexivity
     | split;
       [ intros p c Hin Hopen Haud; in_log Hin; injection Hin as <-;
         same_call Hopen; try discriminate Hopen;
         injection Hopen as <-; cbn [audio] in Haud;
         try discriminate Haud;
         read_log; repeat split; reflexivity
       | intros p c ex Hin He; in_log Hin; injection Hin as <- <-;
         same_call He; try discriminate He; injection He as <-;
         read_log; repeat split; reflexivity ] ]).
Qed.

(** The signals of a job: checkpoints, then at most one terminal event. *)
Lemma job_signals_shape (w : World) (i o : string) (a : option Z) :
  let r := job w i o a in
  exists n t,
    signals (log (machine r))
      = (map Emit_progress (firstn n checkpoints) ++ t)%list /\
    (t = [] \/ (exists m, t = [Emit_error m]) \/
     (n = 6 /\ t = [Emit_finished o (success_message o)])).
Proof.
  cbv zeta. job_cases w i o a.
  1: init_failed; (exists 0, []; (split; [reflexivity | now left])).
  all: read_log.
  all: first
    [ exists 6; eexists; split; [reflexivity|]; now right; right
    | exists 6; eexists; split; [reflexivity|]; right; left; eauto; fail
    | exists 5; eexists; split; [reflexivity|]; right; left; eauto; fail
    | exists 4; eexists; split; [reflexivity|]; right; left; eauto; fail
    | exists 3; eexists; split; [reflexivity|]; right; left; eauto; fail
    | exists 2; eexists; split; [reflexivity|]; right; left; eauto; fail
    | exists 1; eexists; split; [reflexivity|]; right; left; eauto; fail
    | exists 0; eexists; split; [reflexivity|]; right; left; eauto; fail
    | exists 6; eexists; split; [reflexivity|]; now left
    | exists 5; eexists; split; [reflexivity|]; now left
    | exists 4; eexists; split; [reflexivity|]; now left
    | exists 3; eexists; split; [reflexivity|]; now left
    | exists 2; eexists; split; [reflexivity|]; now left
    | exists 1; eexists; split; [reflexivity|]; now left
    | exists 0; eexists; split; [reflexivity|]; now left ].
Qed.


(** X10.  The two errors guarded by [if not self.error.signal] are never
    delivered, and neither is the one of [run]'s dependency check: no job
    emits "Audio extraction failed (no output file).", "An unexpected
    error occurred:..." or "Core dependencies ... not found.".  So when
    [write_audiofile] returns without having written the file, the job
    ends normally and silently: no terminal event, progress at 20, the
    model never called. *)
Theorem unexpected_faults_are_not_reported (w : World) (i o : string)
        (a : option Z) :
  let r := job w i o a in
  let l := log (machine r) in
  (forall m,
      In (Emit_error m) l ->
      m <> "Audio extraction failed (no output file)." /\
      (forall e, m <> "An unexpected error occurred:" ++ nl ++ str e) /\
      m <> "Core dependencies (deepfilternet, moviepy, imageio_ffmpeg) not found.") /\
  (forall p c,
      In (Call_write_audiofile p c) l ->
      raised (write_audio w p) = None ->
      file_written (write_audio w p) = false ->
      ending r = Normal tt /\ terminals l = [] /\
      progress_of l = [5; 20]%Z /\ filter is_model_call l = []).
Proof.
  cbv zeta. job_cases w i o a.
  1: init_failed; (split; [intros m H | intros p c H]; in_log H).
  all: cbn [machine log ending];
    (split;
     [ intros m Hin; in_log Hin; injection Hin as <-;
       (split; [intros E; cbn [append] in E; discriminate E|];
        split; [intros ex E; cbn [append] in E; discriminate E
               | intros E; cbn [append] in E; discriminate E])
     | intros p c Hin He Hf; in_log Hin; injection Hin as <- <-;
       same_call He; try discriminate He;
       try (same_call Hf); try discriminate Hf;
       read_log; repeat split; reflexivity ]).
Qed.


(** X12.  What each stage is given.  [enhance] is called with the samples
    that [load_audio] returned for the file that [write_audiofile] was told
    to write, read at the sample rate of the model in
    [resource_path("models/DeepFilterNet3")], and with the attenuation
    limit the worker was constructed with.  [save_audio] is called with
    the samples that [enhance] returned and the same sample rate.  The
    model is called at most three times and the writer at most once. *)
Theorem stage_data_flow (w : World) (i o : string) (a : option Z) :
  let l := log (machine (job w i o a)) in
  (forall t att,
      In (Call_enhance t att) l ->
      att = a /\
      exists p sr,
        In (Call_write_audiofile p "pcm_s16le") l /\
        In (Call_load_audio p sr) l /\
        df_init w (resource_path w "models/DeepFilterNet3") = inr sr /\
        df_load w p sr = inr t) /\
  (forall p t sr,
      In (Call_save_audio p t sr) l ->
      exists t0,
        In (Call_enhance t0 a) l /\
        df_enhance w t0 a = inr (Some t) /\
        df_init w (resource_path w "models/DeepFilterNet3") = inr sr) /\
  length (filter is_model_call l) <= 3 /\
  length (filter is_save_call l) <= 1.
Proof.
  cbv zeta. job_cases w i o a.
  1: init_failed; cbn;
     (split; [intros t att H; in_log H
             | split; [intros p t sr H; in_log H | lia]]).
  all: cbn [machine log];
    (split;
     [ intros t' att Hin; in_log Hin; injection Hin as <- <-;
       (split; [reflexivity|]; do 2 eexists;
        split; [cbn [In]; eauto 20|];
        split; [cbn [In]; eauto 20|];
        split; first [eassumption | reflexivity])
     | split;
       [ intros p t' sr' Hin; in_log Hin; injection Hin as <- <- <-;
         (eexists; split; [cbn [In]; eauto 20|];
          split; first [eassumption | reflexivity])
       | read_log; lia ] ]).
Qed.


Ltac refute Hco :=
  exfalso;
  destruct Hco as (Ho & Hw & Hc & Hi & Hl & He & Hs & (exe' & Hg) & Hp & Hst);
  unfold stop_called in *; rewrite ?Hst in *;
  match goal with
  | H : false = true |- _ => discriminate H
  | H : open_clip _ ?p = _ |- _ => rewrite (Ho p) in H; discriminate H
  | H : raised (write_audio _ ?p) = Some _ |- _ =>
      rewrite (Hw p) in H; discriminate H
  | H : file_written (write_audio _ ?p) = false |- _ =>
      rewrite (Hw p) in H; discriminate H
  | H : close_clip _ ?n = Some _ |- _ => rewrite (Hc n) in H; discriminate H
  | H : df_init _ ?p = inl _ |- _ =>
      destruct (Hi p) as [? Hx]; rewrite Hx in H; discriminate H
  | H : df_load _ ?p ?sr = inl _ |- _ =>
      destruct (Hl p sr) as [? Hx]; rewrite Hx in H; discriminate H
  | H : df_enhance _ ?t ?a = inl _ |- _ =>
      destruct (He t a) as [? Hx]; rewrite Hx in H; discriminate H
  | H : df_enhance _ ?t ?a = inr None |- _ =>
      destruct (He t a) as [? Hx]; rewrite Hx in H; discriminate H
  | H : raised (df_save _ ?p ?t ?sr) = Some _ |- _ =>
      rewrite (Hs p t sr) in H; discriminate H
  | H : get_ffmpeg_exe _ = inl _ |- _ => rewrite Hg in H; discriminate H
  | H : process _ ?c = SpawnFailed _ |- _ =>
      destruct (Hp c) as (? & ? & ? & Hx); rewrite Hx in H; discriminate H
  | H : process _ ?c = Exited ?rc _ _ _, Hz : (?rc =? 0)%Z = false |- _ =>
      destruct (Hp c) as (? & ? & ? & Hx); rewrite Hx in H;
      injection H as <- _ _ _; discriminate Hz
  end.

(** X14.  When every call succeeds and nobody stops the worker, a job
    whose [run] has got to its first checkpoint completes: its signals are
    the six checkpoints followed by the completion for the output path,
    [run] returns normally and the clip is closed. *)
Theorem job_completes (w : World) (i o : string) (a : option Z) :
  every_call_succeeds w ->
  In (Emit_progress 5) (log (machine (job w i o a))) ->
  ending (job w i o a) = Normal tt /\
  signals (log (machine (job w i o a))) =
    (map Emit_progress checkpoints ++ [Emit_finished o (success_message o)])%list /\
  handle (machine (job w i o a)) = Closed.
Proof.
  intros Hco. job_cases w i o a.
  1: init_failed; intros H; in_log H.
  all: cbn [machine log ending handle]; intros H5.
  all: first [ solve [read_log; repeat split; reflexivity]
             | solve [in_log H5]
             | refute Hco ].
Qed.

(** Reads [H : nth_error (subprocess_runs log) n = Some cmd]. *)
Ltac nth_run H :=
  cbn [machine log subprocess_runs] in H; silence;
  cbn [nth_error] in H;
  first [ discriminate H | injection H as <- ].

(** [e.stderr or e.stdout or 'Unknown FFmpeg error'] on captured output. *)
Lemma ffmpeg_detail (so se : string) :
  fmt (or_ (or_ (Some se) (Some so)) (Some "Unknown FFmpeg error")) =
  if truthy se then se else if truthy so then so else "Unknown FFmpeg error".
Proof.
  unfold fmt, or_, truthy_opt.
  destruct (truthy se) eqn:E1; destruct (truthy so) eqn:E2;
    cbn; rewrite ?E1, ?E2; reflexivity.
Qed.

(** X13.  How the final ffmpeg call, the second process of a job, ends the
    job.  On exit status 0 the job delivers the completion for the output
    path after all six checkpoints, and no error.  On any other exit
    status its only terminal event is the error "FFmpeg error:" followed
    by the captured stderr, or stdout when stderr is empty, or "Unknown
    FFmpeg error" when both are; progress stays at 80.  When the process
    cannot be started, the error is "FFmpeg executable not found." for a
    [FileNotFoundError] and otherwise follows the handlers in their
    order. *)
Theorem final_ffmpeg_outcomes (w : World) (i o : string) (a : option Z)
        (cmd : list string) :
  let r := job w i o a in
  let l := log (machine r) in
  nth_error (subprocess_runs l) 1 = Some cmd ->
  (forall so se wr,
      process w cmd = Exited 0 so se wr ->
      finished_of l = [(o, success_message o)] /\ errors_of l = [] /\
      progress_of l = checkpoints) /\
  (forall rc so se wr,
      process w cmd = Exited rc so se wr -> rc <> 0%Z ->
      errors_of l =
        ["FFmpeg error:" ++ nl ++
         (if truthy se then se
          else if truthy so then so else "Unknown FFmpeg error")] /\
      finished_of l = [] /\ progress_of l = firstn 5 checkpoints /\
      ending r = Normal tt) /\
  (forall e,
      process w cmd = SpawnFailed e ->
      finished_of l = [] /\ progress_of l = firstn 5 checkpoints /\
      ending r = Normal tt /\
      errors_of l =
        [if is_FileNotFoundError e then "FFmpeg executable not found."
         else match e with
              | CalledProcessError _ _ so se =>
                  "FFmpeg error:" ++ nl ++
                  fmt (or_ (or_ se so) (Some "Unknown FFmpeg error"))
              | _ => "Unexpected error during FFmpeg processing: " ++ str e
              end]).
Proof.
  cbv zeta. job_cases w i o a.
  1: init_failed; intros H; nth_run H.
  all: intros Hn; nth_run Hn.
  all: cbn [machine log ending];
    (split;
     [ intros so se wr0 Hp; same_call Hp; try discriminate Hp;
       injection Hp as -> -> -> ->;
       try (match goal with
            | Hz : (0 =? 0)%Z = false |- _ => discriminate Hz
            end);
       read_log; repeat split; reflexivity
     | split;
       [ intros rc0 so se wr0 Hp Hrc; same_call Hp; try discriminate Hp;
         injection Hp as -> -> -> ->;
         try (match goal with
              | Hz : (_ =? 0)%Z = true |- _ =>
                  apply Z.eqb_eq in Hz; contradiction
              end);
         read_log; rewrite ?ffmpeg_detail; repeat split; reflexivity
       | intros ex Hp; same_call Hp; try discriminate Hp;
         injection Hp as <-;
         read_log; repeat split; reflexivity ] ]).
Qed.

(** X15.  When the imports of deep.py failed, a job delivers no signal at
    all: after the constructor, which still runs [remux], the first
    [connect] raises [AttributeError], as the stub of [pyqtSignal] yields
    [None], and the thread is never started.  [run] itself, called on such
    a worker, raises the same kind of exception at the [emit] of its
    dependency check instead of reporting it. *)
Theorem missing_dependencies (w : World) (i o : string) (a : option Z)
        (fr : Frame) :
  DEEPFILTER_AVAILABLE w = false ->
  let r := job w i o a in
  signals (log (machine r)) = [] /\
  length (log (machine r)) <= 2 /\
  (worker r = None \/
   ending r
     = Raise (AttributeError "'NoneType' object has no attribute 'connect'")) /\
  run w fr
    = (Raise (AttributeError "'NoneType' object has no attribute 'emit'"), fr).
Proof.
  intros D. cbv zeta. split; [|split; [|split]].
  4: { unfold run, error_emit, error, pyqtSignal, emit, lift, raise, bind.
       rewrite D. cbn. destruct fr as [s0 o0 t0]. reflexivity. }
  all: unfold job;
    destruct (init_spec w i o a)
      as [(e & s & Ei & Hh & Hl) | (exe & d & F & Hm & HF & Ei)];
    rewrite Ei; clear Ei.
  all: try (destruct Hl as [Hl | (exe & d & Hm & Hl)]);
    unfold launch, connect, progress, pyqtSignal, bind; rewrite ?D;
    cbn [machine log worker ending sys]; rewrite ?Hl;
    cbn; auto.
Qed.

(* ===================================================================== *)
(** ** The window                                                        *)
(* ===================================================================== *)


Module WindowFacts.
Import VideoDenoiserApp.

Module StrFacts.

Lemma lower_append (a b : string) : lower (a ++ b) = lower a ++ lower b.
Proof. induction a as [|c a IH]; simpl; [reflexivity | now rewrite IH]. Qed.

Lemma substring_zero_all (s : string) : substring 0 (String.length s) s = s.
Proof. induction s as [|c s IH]; simpl; [reflexivity | now rewrite IH]. Qed.

Lemma substring_append (a b : string) :
  substring (String.length a) (String.length b) (a ++ b) = b.
Proof.
  induction a as [|c a IH]; simpl; [apply substring_zero_all | exact IH].
Qed.

(** [(a + suffix).endswith(suffix)]. *)
Lemma endswith_append (a b : string) : endswith (a ++ b) b = true.
Proof.
  unfold endswith. rewrite OsFacts.length_append.
  replace (String.length a + String.length b - String.length b)
    with (String.length a) by lia.
  rewrite substring_append, String.eqb_refl, andb_true_r.
  apply Nat.leb_le. lia.
Qed.

Lemma truthy_true (s : string) : truthy s = true <-> s <> "".
Proof.
  unfold truthy. rewrite negb_true_iff. apply String.eqb_neq.
Qed.

Lemma truthy_append (a b : string) : truthy b = true -> truthy (a ++ b) = true.
Proof.
  intros H. apply truthy_true. apply truthy_true in H.
  destruct a; simpl; [assumption | discriminate].
Qed.

End StrFacts.

(** [run_handler] executes the handlers on a window. *)
Ltac run_handler :=
  cbv [handle_event call browse_input browse_output toggle_atten_slider
       update_atten_label start_denoising update_progress
       denoising_finished denoising_error slot
       update_denoise_button_state __init__
       bind gets modify ret return_ raise
       set_input_video_path set_output_video_path set_denoise_worker
       setEnabled setVisible setChecked setText set_value setValue
       setRange did set_queued upd widget_eqb
       input_video_path output_video_path denoise_worker isEnabled
       isVisible isChecked text minimum maximum value calls queued
       fst snd].

Ltac forall_calls :=
  repeat match goal with
         | |- Forall _ (_ ++ _)%list => apply Forall_app; split
         | |- Forall _ (_ :: _) => constructor
         | |- Forall _ [] => constructor
         end.

Ltac open_app g :=
  destruct g as [ip op wk en vi ch tx mn mx vl cl qu];
  cbn [input_video_path output_video_path denoise_worker isEnabled
       isVisible isChecked text minimum maximum value calls queued] in *.

Ltac close_app :=
  constructor;
  cbn [input_video_path output_video_path denoise_worker isEnabled
       isVisible isChecked text minimum maximum value calls queued];
  auto.

Section Window.
Variable w : World.

(** The path [browse_output] stores for a chosen name. *)
Lemma chosen_output_is_mp4 (fname : string) :
  endswith
    (lower (if negb (endswith (lower fname) ".mp4") then fname ++ ".mp4"
            else fname)) ".mp4" = true.
Proof.
  destruct (endswith (lower fname) ".mp4") eqn:E; simpl; [exact E|].
  rewrite StrFacts.lower_append. apply StrFacts.endswith_append.
Qed.

Lemma init_consistent :
  fst (call (__init__ w) blank) = Normal tt /\
  consistent w (snd (call (__init__ w) blank)).
Proof.
  unfold blank. run_handler.
  destruct (DEEPFILTER_AVAILABLE w) eqn:D; simpl.
  all: split; [reflexivity|].
  all: constructor; simpl; auto; try lia.
  all: try (intros [H|[H|H]]; [discriminate | now elim H | now elim H]).
  all: try discriminate.
Qed.

Lemma handler_consistent (ev : event) (g : App) :
  consistent w g -> consistent w (snd (handle_event w ev g)).
Proof.
  intros [A1 A2 A3 [A4 A5] A6 A7 A8 A9 A10].
  open_app g.
  destruct ev as [fname|fname| |v|running|].
  - (* browse_input *)
    run_handler. destruct (truthy fname) eqn:T; cbn [snd].
    2: now close_app.
    apply StrFacts.truthy_true in T.
    destruct (truthy op) eqn:To; cbn [andb negb].
    all: destruct (DEEPFILTER_AVAILABLE w) eqn:D; cbn [andb negb snd].
    all: close_app; forall_calls; cbn [well_formed_job]; auto.
    all: try (apply StrFacts.truthy_true in To).
    all: try solve [intuition congruence].
  - (* browse_output *)
    run_handler. destruct (truthy fname) eqn:T; cbn [snd].
    2: now close_app.
    pose proof (chosen_output_is_mp4 fname) as Hmp4.
    assert (Hne : truthy (if negb (endswith (lower fname) ".mp4")
                          then fname ++ ".mp4" else fname) = true).
    { destruct (negb (endswith (lower fname) ".mp4"));
        [now apply StrFacts.truthy_append | exact T]. }
    set (o' := if negb (endswith (lower fname) ".mp4")
               then fname ++ ".mp4" else fname) in *.
    rewrite Hne. apply StrFacts.truthy_true in Hne.
    destruct (truthy ip) eqn:Ti; cbn [andb negb].
    all: destruct (DEEPFILTER_AVAILABLE w) eqn:D; cbn [andb negb snd].
    all: close_app.
    all: try (apply StrFacts.truthy_true in Ti).
    all: try solve [intuition congruence].
  - (* the checkbox *)
    run_handler. destruct (ch atten_checkbox) eqn:C; cbn [negb Z.eqb snd].
    all: close_app.
  - (* the slider *)
    run_handler. rewrite A1.
    destruct (ch atten_checkbox) eqn:C; cbn [negb snd].
    1: now close_app; rewrite ?C; auto.
    rewrite ?A4, ?A5.
    destruct (Z.eqb_spec (Z.max 1 (Z.min 60 v)) (vl atten_slider)) as [E|E];
      cbn [snd].
    all: close_app; rewrite ?C, ?E; try lia; auto.
  - (* the denoise button *)
    run_handler.
    destruct (en denoise_button) eqn:B; cbn [snd];
      [|now close_app; rewrite ?B; auto].
    assert (P : ip <> "" /\ op <> "") by (apply A8; now left).
    assert (D : DEEPFILTER_AVAILABLE w = true).
    { destruct (DEEPFILTER_AVAILABLE w); [reflexivity|].
      destruct (A9 eq_refl) as (Q & _). discriminate Q. }
    destruct P as (Pi & Po).
    rewrite (proj2 (StrFacts.truthy_true ip) Pi),
      (proj2 (StrFacts.truthy_true op) Po).
    cbn [negb orb].
    assert (J : well_formed_job w
                  (New_DenoiseWorker ip op
                     (if negb (ch atten_checkbox)
                      then Some (vl atten_slider) else None))).
    { cbn [well_formed_job]. split; [assumption|].
      split; [assumption|]. split.
      - destruct A7 as [A7|A7]; [contradiction | exact A7].
      - destruct (negb (ch atten_checkbox)); [exact A6 | exact I]. }
    destruct (match wk with Some _ => running | None => false end);
      run_handler.
    { close_app; forall_calls; cbn [well_formed_job]; auto;
        intuition congruence. }
    destruct ((mn progress_bar <=? 0)%Z && (0 <=? mx progress_bar)%Z);
      run_handler.
    all: set (att := if negb (ch atten_checkbox)
                     then Some (vl atten_slider) else None) in *.
    all: destruct (worker (job w ip op att)) as [o'|];
      destruct (ending (job w ip op att)) as [[]| |e]; run_handler.
    all: close_app; forall_calls; auto.
    all: try solve [intuition congruence].
  - (* a queued signal *)
    run_handler. destruct qu as [|a qu]; cbn [snd]; [now close_app|].
    assert (P : ip <> "" /\ op <> "")
      by (apply A8; right; left; discriminate).
    assert (D : DEEPFILTER_AVAILABLE w = true).
    { destruct (DEEPFILTER_AVAILABLE w); [reflexivity|].
      destruct (A9 eq_refl) as (_ & Q & _). discriminate Q. }
    destruct a; cbn [snd]; try (now close_app; intuition congruence).
    1: destruct ((mn progress_bar <=? percent)%Z
                 && (percent <=? mx progress_bar)%Z); run_handler.
    all: close_app; forall_calls; cbn [well_formed_job]; auto.
    all: try solve [intuition congruence].
Qed.

Lemma for_consistent (events : list event) (g : App) :
  consistent w g -> consistent w (snd (for_ events (handle_event w) g)).
Proof.
  revert g. induction events as [|ev evs IH]; intros g H; [exact H|].
  cbn [for_]. unfold bind.
  pose proof (handler_consistent ev g H) as K.
  destruct (handle_event w ev g) as [[u| |e] g']; cbn [snd] in *; auto.
Qed.

Lemma session_consistent (events : list event) :
  consistent w (snd (session w events)).
Proof.
  unfold session, bind. destruct init_consistent as [N C].
  destruct (call (__init__ w) blank) as [c g]. cbn [fst snd] in *. subst c.
  now apply for_consistent.
Qed.

(** X16.  [browse_output] stores a path that ends in [.mp4], whatever the
    case of its letters: a chosen name that already ends so is stored as
    it is ([clip.MP4] is not turned into [clip.MP4.mp4]), any other name
    gets [.mp4] appended.  The line edit shows the base name of the stored
    path, the input path is untouched, and the denoise button is enabled
    exactly when an input is chosen and the dependencies were imported.  A
    cancelled dialog (the empty name) changes nothing. *)
Theorem browse_output_stores_an_mp4_path (fname : string) (g : App) :
  let g' := snd (browse_output w fname g) in
  (fname = "" -> g' = g) /\
  (fname <> "" ->
   endswith (lower (output_video_path g')) ".mp4" = true /\
   (endswith (lower fname) ".mp4" = true -> output_video_path g' = fname) /\
   (endswith (lower fname) ".mp4" = false ->
    output_video_path g' = fname ++ ".mp4") /\
   text g' output_lineedit = basename (output_video_path g') /\
   input_video_path g' = input_video_path g /\
   isEnabled g' denoise_button
     = truthy (input_video_path g) && DEEPFILTER_AVAILABLE w).
Proof.
  cbv zeta. split.
  - intros ->. reflexivity.
  - intros H. apply StrFacts.truthy_true in H.
    pose proof (chosen_output_is_mp4 fname) as Hmp4.
    assert (Hne : truthy (if negb (endswith (lower fname) ".mp4")
                          then fname ++ ".mp4" else fname) = true).
    { destruct (negb (endswith (lower fname) ".mp4"));
        [now apply StrFacts.truthy_append | exact H]. }
    destruct g as [ip op wk en vi ch tx mn mx vl cl qu].
    run_handler. rewrite H. run_handler. rewrite Hne.
    destruct (DEEPFILTER_AVAILABLE w); run_handler.
    all: rewrite ?andb_true_r, ?andb_false_r.
    all: split; [exact Hmp4|].
    all: split; [intros E; rewrite E; reflexivity|].
    all: split; [intros E; rewrite E; reflexivity|].
    all: repeat split; reflexivity.
Qed.

(** X17.  The attenuation controls agree, in every window reached from
    [__init__] by the user's actions and the workers' signals: the slider
    is enabled, and its label visible, exactly when the box "Use Default
    Attenuation" is unchecked; the label reads "Limit: v dB" for the value
    v of the slider; and v lies between 1 and 60. *)
Theorem attenuation_controls_agree (events : list event) :
  let g := snd (session w events) in
  isEnabled g atten_slider = negb (isChecked g atten_checkbox) /\
  isVisible g atten_label = negb (isChecked g atten_checkbox) /\
  text g atten_label = "Limit: " ++ str_int (value g atten_slider) ++ " dB" /\
  (1 <= value g atten_slider <= 60)%Z.
Proof.
  cbv zeta. destruct (session_consistent events) as [A1 A2 A3 _ A6 _ _ _ _].
  auto.
Qed.

(** X19.  Every worker the window constructs is given a non-empty input
    path, an output path that ends in [.mp4] whatever the case of its
    letters, and an attenuation limit that is [None] or between 1 and 60;
    and the window constructs a worker only when the dependencies were
    imported, so that the dependency check of [run] never fires for a
    job of the window. *)
Theorem submitted_jobs_are_well_formed (events : list event)
        (i o : string) (att : option Z) :
  In (New_DenoiseWorker i o att) (calls (snd (session w events))) ->
  DEEPFILTER_AVAILABLE w = true /\
  i <> "" /\ endswith (lower o) ".mp4" = true /\
  (att = None \/ exists v, att = Some v /\ (1 <= v <= 60)%Z).
Proof.
  intros H.
  pose proof (jobs_well_formed _ _ (session_consistent events)) as F.
  pose proof (proj1 (Forall_forall _ _) F _ H) as (D & Hi & Ho & Ha).
  repeat (split; [assumption|]).
  destruct att as [v|]; [right; eauto | now left].
Qed.

(** X18.  Whenever the denoise button is enabled, the dependencies were
    imported, an input is chosen and the output path ends in [.mp4], also
    after the slots [denoising_finished] and [denoising_error] have
    enabled the button again without looking at the paths. *)
Theorem denoise_button_needs_both_paths (events : list event) :
  let g := snd (session w events) in
  isEnabled g denoise_button = true ->
  DEEPFILTER_AVAILABLE w = true /\
  input_video_path g <> "" /\
  endswith (lower (output_video_path g)) ".mp4" = true.
Proof.
  cbv zeta. intros B.
  destruct (session_consistent events) as [_ _ _ _ _ A7 A8 A9 _].
  destruct (A8 (or_introl B)) as (Hi & Ho).
  split.
  - destruct (DEEPFILTER_AVAILABLE w); [reflexivity|].
    destruct (A9 eq_refl) as (Q & _). congruence.
  - split; [assumption|]. destruct A7 as [A7|A7]; [contradiction | exact A7].
Qed.

(** X20.  When an exception leaves [start_denoising], it is the one that
    ended the job (that of the constructor, the sanitizing [remux]
    included, or of a [connect]).  The window is then left as the handler
    had set it before constructing the worker: the denoise button
    disabled, the progress bar visible, the status "Starting denoising
    process...", no message box shown and no signal queued; and when the
    constructor raised, the attribute [denoise_worker] is unchanged. *)
Theorem failed_start_leaves_the_window_busy (running : bool) (g : App)
        (e : exn) :
  fst (start_denoising w running g) = Raise e ->
  let g' := snd (start_denoising w running g) in
  let att := if negb (isChecked g atten_checkbox)
             then Some (value g atten_slider) else None in
  let r := job w (input_video_path g) (output_video_path g) att in
  ending r = Raise e /\
  isEnabled g' denoise_button = false /\
  isVisible g' progress_bar = true /\
  text g' status_label = "Starting denoising process..." /\
  calls g' =
    (calls g ++
     [New_DenoiseWorker (input_video_path g) (output_video_path g) att])%list /\
  queued g' = queued g /\
  (worker r = None -> denoise_worker g' = denoise_worker g).
Proof.
  destruct g as [ip op wk en vi ch tx mn mx vl cl qu].
  run_handler.
  destruct (negb (truthy ip) || negb (truthy op)); run_handler;
    [discriminate|].
  destruct (match wk with Some _ => running | None => false end);
    run_handler; [discriminate|].
  destruct ((mn progress_bar <=? 0)%Z && (0 <=? mx progress_bar)%Z);
    run_handler.
  all: set (att := if negb (ch atten_checkbox)
                   then Some (vl atten_slider) else None) in *.
  all: destruct (worker (job w ip op att)) as [o'|];
    destruct (ending (job w ip op att)) as [[]| |e']; run_handler;
    try discriminate.
  all: intros [= ->]; repeat split; try reflexivity; discriminate.
Qed.

End Window.

Section AfterJob.
Variable w : World.

(** A slot returns, and leaves the queue alone. *)
Lemma slot_returns (a : action) (g : App) :
  fst (call (slot a) g) = Normal tt /\
  queued (snd (call (slot a) g)) = queued g.
Proof.
  destruct g as [ip op wk en vi ch tx mn mx vl cl qu].
  destruct a; run_handler; auto.
  destruct ((mn progress_bar <=? percent)%Z && (percent <=? mx progress_bar)%Z);
    auto.
Qed.

(** Deliveries to a window without queued signals do nothing. *)
Lemma deliver_nothing (n : nat) (g : App) :
  queued g = [] ->
  for_ (repeat Deliver_signal n) (handle_event w) g = (Normal tt, g).
Proof.
  intros Q. induction n as [|n IH]; [reflexivity|].
  cbn [repeat for_]. unfold bind at 1.
  replace (handle_event w Deliver_signal g) with (Normal tt, g);
    [exact IH|].
  unfold handle_event, bind, gets. now rewrite Q.
Qed.

(** Enough deliveries empty the queue. *)
Lemma deliver_all (q : list action) (n : nat) (g : App) :
  queued g = q -> length q <= n ->
  for_ (repeat Deliver_signal n) (handle_event w) g
    = (Normal tt, drained q g) /\
  queued (drained q g) = [].
Proof.
  revert n g. induction q as [|a q IH]; intros n g Q Hn.
  - split; [now apply deliver_nothing | exact Q].
  - destruct n as [|n]; [cbn in Hn; lia|].
    cbn [length] in Hn. apply le_S_n in Hn.
    cbn [repeat for_ drained]. unfold bind at 1.
    unfold handle_event at 1. unfold bind at 1, gets at 1. rewrite Q.
    unfold bind at 1, modify at 1.
    destruct (slot_returns a (set_queued q g)) as [N K].
    destruct (call (slot a) (set_queued q g)) as [c g1].
    cbn [fst snd] in *. subst c.
    apply IH; [|exact Hn].
    rewrite K. destruct g; reflexivity.
Qed.

Lemma terminals_of_signals (l : list action) :
  filter is_terminal (signals l) = terminals l.
Proof.
  unfold signals, terminals.
  induction l as [|a l IH]; [reflexivity|].
  destruct a; cbn; rewrite ?IH; reflexivity.
Qed.

Lemma no_terminal_progress (ps : list Z) :
  filter is_terminal (map Emit_progress ps) = [].
Proof. induction ps as [|p ps IH]; [reflexivity | exact IH]. Qed.

(** The terminal events of a list of checkpoints and [t]. *)
Lemma terminals_of_shape (l : list action) (ps : list Z) (t : list action) :
  signals l = (map Emit_progress ps ++ t)%list ->
  Forall (fun a => is_terminal a = true) t ->
  terminals l = t /\
  (forall a, is_terminal a = true -> In a l -> In a t).
Proof.
  intros Hs Ft.
  assert (E : terminals l = t).
  { rewrite <- terminals_of_signals, Hs, filter_app, no_terminal_progress.
    cbn [app]. clear Hs. induction Ft as [|a t Ha _ IH]; [reflexivity|].
    cbn [filter]. now rewrite Ha, IH. }
  split; [exact E|].
  intros a Ha Hin. rewrite <- E. unfold terminals.
  apply filter_In. auto.
Qed.

(** The click on the button, when a worker is started. *)
Lemma click_starts (running : bool) (g : App) :
  let i := input_video_path g in
  let o := output_video_path g in
  let att := if negb (isChecked g atten_checkbox)
             then Some (value g atten_slider) else None in
  let r := job w i o att in
  isEnabled g denoise_button = true ->
  i <> "" -> o <> "" ->
  (denoise_worker g = None \/ running = false) ->
  queued g = [] ->
  worker r <> None -> ending r = Normal tt ->
  exists g1,
    handle_event w (Click_denoise running) g = (Normal tt, g1) /\
    queued g1 = signals (log (machine r)) /\
    isEnabled g1 denoise_button = false /\
    isVisible g1 progress_bar = true /\
    text g1 status_label = "Starting denoising process..." /\
    text g1 play_button = text g play_button.
Proof.
  cbv zeta. intros B Hi Ho Hbusy Q Hw He.
  destruct g as [ip op wk en vi ch tx mn mx vl cl qu].
  cbn [input_video_path output_video_path denoise_worker isEnabled
       isVisible isChecked text minimum maximum value calls queued] in *.
  subst qu.
  run_handler. rewrite B.
  rewrite (proj2 (StrFacts.truthy_true ip) Hi),
    (proj2 (StrFacts.truthy_true op) Ho).
  cbn [negb orb]. run_handler.
  destruct Hbusy as [-> | ->]; [|destruct wk]; run_handler.
  all: destruct ((mn progress_bar <=? 0)%Z && (0 <=? mx progress_bar)%Z);
    run_handler.
  all: set (att := if negb (ch atten_checkbox)
                   then Some (vl atten_slider) else None) in *.
  all: destruct (worker (job w ip op att)) as [o'|]; [|now elim Hw].
  all: rewrite He; run_handler.
  all: eexists; split; [reflexivity|]; run_handler; repeat split.
Qed.

(** The window after the checkpoints [ps] have been delivered. *)
Lemma drained_progress (ps : list Z) (t : list action) (g : App) :
  exists g2,
    drained (map Emit_progress ps ++ t)%list g = drained t g2 /\
    isEnabled g2 denoise_button = isEnabled g denoise_button /\
    isVisible g2 progress_bar = isVisible g progress_bar /\
    text g2 play_button = text g play_button /\
    (text g2 status_label = text g status_label \/
     exists v, In v ps /\
               text g2 status_label
                 = "Denoising in progress... " ++ str_int v ++ "%").
Proof.
  revert g. induction ps as [|p ps IH]; intros g.
  - exists g. cbn [map app]. repeat (split; [reflexivity|]). now left.
  - cbn [map app drained].
    destruct (IH (snd (call (slot (Emit_progress p))
                         (set_queued (map Emit_progress ps ++ t)%list g))))
      as (g2 & E & B & V & P & T).
    exists g2. split; [exact E|].
    destruct g as [ip op wk en vi ch tx mn mx vl cl qu].
    revert B V P T. run_handler.
    destruct ((mn progress_bar <=? p)%Z && (p <=? mx progress_bar)%Z);
      intros B V P T.
    all: repeat (split; [assumption|]).
    all: right; destruct T as [T | (v & Hv & T)];
      [ exists p; split; [now left | exact T]
      | exists v; split; [now right | exact T] ].
Qed.

(** X21.  The window after a job whose worker was started, once its
    signals are delivered.  When the job delivered no terminal event, the
    denoise button stays disabled and the progress bar visible, and the
    status is still the starting text or that of the last checkpoint:
    nothing tells the window that the job is over.  When the job
    delivered an error, the button is enabled again, the bar hidden, the
    status is "Error: " and the message, and the last thing shown is the
    message box with it.  When the job delivered a completion, it is that
    of the window's output path; the button is enabled again, the bar
    hidden, the status is the message, the play button reads "Play
    Denoised" and the player's source is the output file. *)
Theorem window_after_job (running : bool) (g : App) (n : nat) :
  let i := input_video_path g in
  let o := output_video_path g in
  let att := if negb (isChecked g atten_checkbox)
             then Some (value g atten_slider) else None in
  let r := job w i o att in
  let l := log (machine r) in
  let g' := snd (for_ (Click_denoise running :: repeat Deliver_signal n)
                      (handle_event w) g) in
  isEnabled g denoise_button = true ->
  i <> "" -> o <> "" ->
  (denoise_worker g = None \/ running = false) ->
  queued g = [] ->
  worker r <> None -> ending r = Normal tt ->
  length (signals l) <= n ->
  queued g' = [] /\
  (terminals l = [] ->
   isEnabled g' denoise_button = false /\
   isVisible g' progress_bar = true /\
   (text g' status_label = "Starting denoising process..." \/
    exists v, In v checkpoints /\
              text g' status_label
                = "Denoising in progress... " ++ str_int v ++ "%")) /\
  (forall m,
      In (Emit_error m) l ->
      isEnabled g' denoise_button = true /\
      isVisible g' progress_bar = false /\
      text g' status_label = "Error: " ++ m /\
      last (calls g') media_player_stop
        = QMessageBox_critical "Denoising Error" m) /\
  (forall p m,
      In (Emit_finished p m) l ->
      p = o /\ m = success_message o /\
      isEnabled g' denoise_button = true /\
      isVisible g' progress_bar = false /\
      text g' status_label = m /\
      text g' play_button = "Play Denoised" /\
      last (calls g') media_player_stop = media_player_setSource o).
Proof.
  intros i o att r l g' B Hi Ho Hbusy Q Hw He Hn.
  destruct (click_starts running g B Hi Ho Hbusy Q Hw He)
    as (g1 & E1 & Q1 & B1 & V1 & T1 & P1).
  fold i o att r l in Q1.
  destruct (deliver_all (signals l) n g1 Q1 Hn) as [E2 Q2].
  assert (Eg : g' = drained (signals l) g1).
  { unfold g'. cbn [for_]. unfold bind at 1. rewrite E1, E2. reflexivity. }
  clearbody g'. subst g'. clear E1 E2.
  split; [exact Q2|]. clear Q2.
  destruct (job_signals_shape w i o att) as (k & t & Hs & Ht).
  cbv zeta in Hs. fold r l in Hs.
  assert (Ft : Forall (fun a => is_terminal a = true) t).
  { destruct Ht as [-> | [(m & ->) | (_ & ->)]]; repeat constructor. }
  destruct (terminals_of_shape _ _ _ Hs Ft) as [Et Hin].
  rewrite Hs.
  destruct (drained_progress (firstn k checkpoints) t g1)
    as (g2 & E & B2 & V2 & P2 & T2).
  rewrite E. rewrite B1 in B2. rewrite V1 in V2. rewrite T1 in T2.
  assert (T3 : text g2 status_label = "Starting denoising process..." \/
               exists v, In v checkpoints /\
                 text g2 status_label
                   = "Denoising in progress... " ++ str_int v ++ "%").
  { destruct T2 as [T2 | (v & Hv & T2)]; [now left|].
    right. exists v. split; [|exact T2].
    rewrite <- (firstn_skipn k checkpoints). apply in_or_app. now left. }
  clear E Hs T2.
  destruct g2 as [ip op wk en vi ch tx mn mx vl cl qu].
  cbn [isEnabled isVisible text] in B2, V2, P2, T3.
  split; [|split].
  - intros Hz. rewrite Hz in Et. subst t.
    cbn [drained isEnabled isVisible text]. auto.
  - intros m Hm. apply (Hin (Emit_error m) eq_refl) in Hm.
    destruct Ht as [-> | [(m' & ->) | (_ & ->)]]; cbn [In] in Hm;
      try (destruct Hm as [Hm|[]]; try discriminate Hm); try contradiction.
    injection Hm as ->.
    cbn [drained]. run_handler. rewrite last_last. repeat split.
  - intros p m Hm. apply (Hin (Emit_finished p m) eq_refl) in Hm.
    destruct Ht as [-> | [(m' & ->) | (_ & ->)]]; cbn [In] in Hm;
      try (destruct Hm as [Hm|[]]; try discriminate Hm); try contradiction.
    injection Hm as <- <-.
    cbn [drained]. run_handler.
    rewrite last_last. repeat split.
Qed.

End AfterJob.

End WindowFacts.

(* ===================================================================== *)
(** ** Instances on particular jobs and windows                           *)
(* ===================================================================== *)

Module MoreInstances.
Import Worlds Faults VideoDenoiserApp.

Lemma fine_succeeds : every_call_succeeds fine.
Proof.
  unfold every_call_succeeds.
  repeat split; intros; repeat eexists.
Defined.

Lemma remux_returns_witness :
  Os.entry_of "/tmp/tmpa1b2c3d4" "/tmp/tmpa1b2c3d4/remux_in.mp4"
    = Some "remux_in.mp4" /\
  In "/tmp/tmpa1b2c3d4" (fs (snd (remux fine input (boot fine)))).
Proof.
  destruct (remux_returns fine input (boot fine)
              (snd (remux fine input (boot fine)))
              "/tmp/tmpa1b2c3d4/remux_in.mp4"
              ltac:(vm_compute; reflexivity))
    as (d & exe & Hm & _ & _ & _ & He & _ & _ & Hin).
  cbv in Hm. injection Hm as <-. split; [exact He | exact Hin].
Defined.

Lemma remux_raises_witness :
  (fs (snd (remux broken_container input (boot broken_container)))
     = fs (boot broken_container) /\
   log (snd (remux broken_container input (boot broken_container)))
     = (log (boot broken_container) ++ [Call_mkdtemp])%list /\
   (mkdtemp broken_container (mkdtemp_calls (boot broken_container))
      = inl (CalledProcessError 1
               (remux_cmd "/usr/bin/ffmpeg" input
                          "/tmp/tmpa1b2c3d4/remux_in.mp4") None None) \/
    exists d,
      mkdtemp broken_container (mkdtemp_calls (boot broken_container))
        = inr d /\
      Os.taken d (fs (boot broken_container)) = true /\
      CalledProcessError 1
        (remux_cmd "/usr/bin/ffmpeg" input "/tmp/tmpa1b2c3d4/remux_in.mp4")
        None None
        = OSError "No usable temporary directory name found")) \/
  (exists d,
      mkdtemp broken_container (mkdtemp_calls (boot broken_container))
        = inr d /\
      Os.exists_ d
        (fs (snd (remux broken_container input (boot broken_container))))
        = true /\
      (get_ffmpeg_exe broken_container
         = inl (CalledProcessError 1
                  (remux_cmd "/usr/bin/ffmpeg" input
                             "/tmp/tmpa1b2c3d4/remux_in.mp4") None None) /\
       log (snd (remux broken_container input (boot broken_container)))
         = (log (boot broken_container) ++ [Call_mkdtemp])%list \/
       exists exe,
         let cmd :=
           remux_cmd exe input
             (Os.path_join d ("remux_" ++ Os.Path_name input)) in
         log (snd (remux broken_container input (boot broken_container)))
           = (log (boot broken_container)
              ++ [Call_mkdtemp; Call_subprocess_run cmd])%list /\
         (process broken_container cmd
            = SpawnFailed
                (CalledProcessError 1
                   (remux_cmd "/usr/bin/ffmpeg" input
                              "/tmp/tmpa1b2c3d4/remux_in.mp4") None None) \/
          exists rc so se wr,
            process broken_container cmd = Exited rc so se wr /\
            rc <> 0%Z /\
            CalledProcessError 1
              (remux_cmd "/usr/bin/ffmpeg" input
                         "/tmp/tmpa1b2c3d4/remux_in.mp4") None None
              = CalledProcessError rc cmd None None))).
Proof.
  apply (remux_raises broken_container input (boot broken_container)).
  vm_compute. reflexivity.
Defined.

Lemma cleanup_is_confined_witness :
  Os.exists_ "/home/u/in.mp4"
    (fs (snd (_cleanup stubborn_file "/tmp/job" two_files))) = true.
Proof.
  apply cleanup_is_confined; reflexivity.
Defined.

Lemma cleanup_is_best_effort_witness :
  Os.exists_ (Os.path_join "/tmp/job" "temp_enhanced_audio.wav")
    (fs (snd (_cleanup stubborn_file "/tmp/job" two_files))) = false.
Proof.
  apply cleanup_is_best_effort.
  - reflexivity.
  - reflexivity.
  - intros p e. cbn.
    destruct (p =? "/tmp/job/temp_original_audio.wav");
      [intros [= <-]; reflexivity | discriminate].
  - vm_compute. tauto.
  - reflexivity.
Defined.

Lemma constructor_directory_is_left_behind_witness :
  exists d,
    mkdtemp fine 0 = inr d /\
    Os.exists_ d (fs (machine (job fine input output None))) = true.
Proof.
  apply constructor_directory_is_left_behind.
  vm_compute. discriminate.
Defined.

Lemma run_directory_is_removed_witness :
  Os.exists_ "/tmp/tmpe5f6g7h8" (fs (machine (job fine input output None)))
    = false /\
  Os.listdir "/tmp/tmpe5f6g7h8" (fs (machine (job fine input output None)))
    = [].
Proof.
  apply run_directory_is_removed.
  - repeat split.
  - vm_compute. reflexivity.
Defined.

Lemma job_keeps_existing_files_witness :
  Os.exists_ input (fs (machine (job model_raises input output None))) = true.
Proof.
  apply job_keeps_existing_files. reflexivity.
Defined.

Lemma extraction_failures_witness :
  errors_of
    (log (machine
            (job (world ffmpeg_ok (inl (OSError "moov atom not found"))
                        denoised saved None) input output None)))
    = ["Failed to open input video:" ++ nl ++ "moov atom not found"] /\
  errors_of
    (log (machine
            (job (world ffmpeg_ok (inr {| audio := AudioWithoutWriter |})
                        denoised saved None) input output None)))
    = ["Internal error during audio processing (MoviePy)."] /\
  errors_of (log (machine (job unwritable_audio input output None)))
    = ["Failed to extract audio:" ++ nl ++ "No space left on device"].
Proof.
  split; [|split].
  - apply (proj1 (extraction_failures
                    (world ffmpeg_ok (inl (OSError "moov atom not found"))
                           denoised saved None) input output None)
             "/tmp/tmpa1b2c3d4/remux_in.mp4" (OSError "moov atom not found"));
      [vm_compute; tauto | reflexivity].
  - apply (proj1 (proj2 (extraction_failures
                    (world ffmpeg_ok (inr {| audio := AudioWithoutWriter |})
                           denoised saved None) input output None))
             "/tmp/tmpa1b2c3d4/remux_in.mp4"
             {| audio := AudioWithoutWriter |});
      [vm_compute; tauto | reflexivity | reflexivity].
  - apply (proj2 (proj2 (extraction_failures unwritable_audio input output
                           None))
             "/tmp/tmpe5f6g7h8/temp_original_audio.wav" "pcm_s16le"
             (OSError "No space left on device"));
      [vm_compute; tauto | reflexivity].
Defined.

Lemma unexpected_faults_are_not_reported_witness :
  "Input video has no audio track."
    <> "Audio extraction failed (no output file)." /\
  terminals (log (machine (job silent_writer input output None))) = [] /\
  progress_of (log (machine (job silent_writer input output None)))
    = [5; 20]%Z.
Proof.
  split.
  - apply (proj1 (unexpected_faults_are_not_reported silent_film input output
                    None) "Input video has no audio track.").
    vm_compute. tauto.
  - destruct (proj2 (unexpected_faults_are_not_reported silent_writer input
                       output None)
                "/tmp/tmpe5f6g7h8/temp_original_audio.wav" "pcm_s16le"
                ltac:(vm_compute; tauto) eq_refl eq_refl)
      as (_ & T & P & _).
    split; [exact T | exact P].
Defined.


Lemma stage_data_flow_witness :
  (exists p sr,
      In (Call_write_audiofile p "pcm_s16le")
         (log (machine (job fine input output (Some 45%Z)))) /\
      In (Call_load_audio p sr)
         (log (machine (job fine input output (Some 45%Z)))) /\
      df_init fine (resource_path fine "models/DeepFilterNet3") = inr sr /\
      df_load fine p sr = inr [12; -7; 3]%Z) /\
  (exists t0,
      In (Call_enhance t0 (Some 45%Z))
         (log (machine (job fine input output (Some 45%Z)))) /\
      df_enhance fine t0 (Some 45%Z) = inr (Some [12; -7; 3]%Z) /\
      df_init fine (resource_path fine "models/DeepFilterNet3")
        = inr 48000%Z).
Proof.
  destruct (stage_data_flow fine input output (Some 45%Z)) as (H1 & H2 & _).
  split.
  - apply (H1 [12; -7; 3]%Z (Some 45%Z)). vm_compute. tauto.
  - apply (H2 "/tmp/tmpe5f6g7h8/temp_enhanced_audio.wav" [12; -7; 3]%Z
              48000%Z).
    vm_compute. tauto.
Defined.

Lemma final_ffmpeg_outcomes_witness :
  finished_of (log (machine (job fine input output None)))
    = [(output, success_message output)] /\
  errors_of (log (machine (job last_ffmpeg_fails input output None)))
    = ["FFmpeg error:" ++ nl ++ "Conversion failed!"].
Proof.
  split.
  - destruct (proj1 (final_ffmpeg_outcomes fine input output None
                       [ "/opt/imageio/ffmpeg"; "-y"; "-ignore_editlist"; "1";
                         "-i"; "/tmp/tmpa1b2c3d4/remux_in.mp4";
                         "-i"; "/tmp/tmpe5f6g7h8/temp_enhanced_audio.wav";
                         "-map"; "0:v:0"; "-map"; "1:a:0"; "-c:v"; "copy";
                         "-c:a"; "aac"; "-b:a"; "320k"; "-shortest"; output ]
                       ltac:(vm_compute; reflexivity))
                "" "" true eq_refl) as (F & _).
    exact F.
  - destruct (proj1 (proj2 (final_ffmpeg_outcomes last_ffmpeg_fails input
                              output None
                       [ "/opt/imageio/ffmpeg"; "-y"; "-ignore_editlist"; "1";
                         "-i"; "/tmp/tmpa1b2c3d4/remux_in.mp4";
                         "-i"; "/tmp/tmpe5f6g7h8/temp_enhanced_audio.wav";
                         "-map"; "0:v:0"; "-map"; "1:a:0"; "-c:v"; "copy";
                         "-c:a"; "aac"; "-b:a"; "320k"; "-shortest"; output ]
                       ltac:(vm_compute; reflexivity)))
                1%Z "" "Conversion failed!" false eq_refl
                ltac:(discriminate)) as (E & _).
    exact E.
Defined.

Lemma job_completes_witness :
  ending (job fine input output None) = Normal tt /\
  signals (log (machine (job fine input output None)))
    = (map Emit_progress checkpoints
       ++ [Emit_finished output (success_message output)])%list /\
  handle (machine (job fine input output None)) = Closed.
Proof.
  apply (job_completes fine input output None fine_succeeds).
  vm_compute. tauto.
Defined.

Lemma missing_dependencies_witness :
  signals (log (machine (job no_dependencies input output None))) = [] /\
  length (log (machine (job no_dependencies input output None))) <= 2 /\
  (worker (job no_dependencies input output None) = None \/
   ending (job no_dependencies input output None)
     = Raise (AttributeError "'NoneType' object has no attribute 'connect'")) /\
  run no_dependencies
      {| sys := boot no_dependencies;
         self := {| input_video := input; output_video := output;
                    atten_lim_db := None; _is_running := true;
                    video_clip := None |};
         temp_dir := None |}
    = (Raise (AttributeError "'NoneType' object has no attribute 'emit'"),
       {| sys := boot no_dependencies;
          self := {| input_video := input; output_video := output;
                     atten_lim_db := None; _is_running := true;
                     video_clip := None |};
          temp_dir := None |}).
Proof.
  apply (missing_dependencies no_dependencies input output None).
  reflexivity.
Defined.

Lemma browse_output_stores_an_mp4_path_witness :
  output_video_path (snd (browse_output fine "/home/u/clip.MP4" blank))
    = "/home/u/clip.MP4" /\
  output_video_path (snd (browse_output fine "/home/u/clip" blank))
    = "/home/u/clip.mp4" /\
  snd (browse_output fine "" blank) = blank.
Proof.
  split; [|split].
  - destruct (proj2 (WindowFacts.browse_output_stores_an_mp4_path
                       fine "/home/u/clip.MP4" blank)
                ltac:(discriminate)) as (_ & H & _).
    exact (H eq_refl).
  - destruct (proj2 (WindowFacts.browse_output_stores_an_mp4_path
                       fine "/home/u/clip" blank)
                ltac:(discriminate)) as (_ & _ & H & _).
    exact (H eq_refl).
  - exact (proj1 (WindowFacts.browse_output_stores_an_mp4_path fine "" blank)
             eq_refl).
Defined.

Lemma denoise_button_needs_both_paths_witness :
  DEEPFILTER_AVAILABLE fine = true /\
  input_video_path
    (snd (session fine [Click_browse_input input;
                        Click_browse_output "/home/u/out"])) <> "" /\
  endswith
    (lower (output_video_path
              (snd (session fine [Click_browse_input input;
                                  Click_browse_output "/home/u/out"]))))
    ".mp4" = true.
Proof.
  apply (WindowFacts.denoise_button_needs_both_paths fine
           [Click_browse_input input; Click_browse_output "/home/u/out"]).
  vm_compute. reflexivity.
Defined.

Lemma submitted_jobs_are_well_formed_witness :
  DEEPFILTER_AVAILABLE fine = true /\
  input <> "" /\ endswith (lower "/home/u/out.mp4") ".mp4" = true /\
  (Some 45%Z = None \/ exists v, Some 45%Z = Some v /\ (1 <= v <= 60)%Z).
Proof.
  apply (WindowFacts.submitted_jobs_are_well_formed fine
           [Click_browse_input input; Click_browse_output "/home/u/out";
            Click_atten_checkbox; Move_atten_slider 45;
            Click_denoise false]).
  vm_compute. tauto.
Defined.

Lemma failed_start_leaves_the_window_busy_witness :
  isEnabled
    (snd (start_denoising broken_container false
            (snd (session broken_container
                    [Click_browse_input input;
                     Click_browse_output "/home/u/out"]))))
    denoise_button = false /\
  text
    (snd (start_denoising broken_container false
            (snd (session broken_container
                    [Click_browse_input input;
                     Click_browse_output "/home/u/out"]))))
    status_label = "Starting denoising process...".
Proof.
  destruct (WindowFacts.failed_start_leaves_the_window_busy
              broken_container false
              (snd (session broken_container
                      [Click_browse_input input;
                       Click_browse_output "/home/u/out"]))
              (CalledProcessError 1
                 (remux_cmd "/usr/bin/ffmpeg" input
                            "/tmp/tmpa1b2c3d4/remux_in.mp4") None None)
              ltac:(vm_compute; reflexivity))
    as (_ & B & _ & T & _).
  split; [exact B | exact T].
Defined.

Lemma window_after_job_witness :
  isEnabled
    (snd (for_ (Click_denoise false :: repeat Deliver_signal 7)
               (handle_event fine)
               (snd (session fine [Click_browse_input input;
                                   Click_browse_output "/home/u/out"]))))
    denoise_button = true /\
  text
    (snd (for_ (Click_denoise false :: repeat Deliver_signal 7)
               (handle_event fine)
               (snd (session fine [Click_browse_input input;
                                   Click_browse_output "/home/u/out"]))))
    status_label = success_message "/home/u/out.mp4".
Proof.
  destruct (WindowFacts.window_after_job fine false
              (snd (session fine [Click_browse_input input;
                                  Click_browse_output "/home/u/out"]))
              7
              ltac:(vm_compute; reflexivity)
              ltac:(vm_compute; discriminate)
              ltac:(vm_compute; discriminate)
              ltac:(left; vm_compute; reflexivity)
              ltac:(vm_compute; reflexivity)
              ltac:(vm_compute; discriminate)
              ltac:(vm_compute; reflexivity)
              ltac:(vm_compute; repeat constructor))
    as (_ & _ & _ & H).
  destruct (H "/home/u/out.mp4" (success_message "/home/u/out.mp4")
              ltac:(vm_compute; tauto))
    as (_ & _ & B & _ & T & _).
  split; [exact B | exact T].
Defined.

End MoreInstances.
